(** * Test-fixture generators for identity documents

    A model of the four scripts [create-test-aadhaar.py], [create-test-pan.py],
    [create-test-passport.py] and [create-test-visa.py].  Each script draws a
    hard-coded record onto a Pillow image, saves it as a JPEG file and prints
    the values an extraction pipeline is expected to recover.

    The scripts are straight-line Python with one [try]/[except] block, so
    they are embedded as computations in a small monad that reads the host
    (font resolution, writability of the working directory), may raise, and
    logs what the run does: record subscripts, file writes and console
    output.  Calls into Pillow are kept symbolic: an image is the history of
    the calls that built it. *)

From Stdlib Require Import ZArith List.
From stdpp Require Import base strings gmap list.

Local Open Scope string_scope.
Local Open Scope Z_scope.
Local Open Scope list_scope.

(** ** Pillow objects *)

(** [ImageFont.truetype(path, size)] yields a FreeType font, and
    [ImageFont.load_default()] the font built into the library. *)
Inductive font :=
| FreeTypeFont (path : string) (size : Z)
| DefaultFont.

(** One call on an [ImageDraw.Draw] object.  Colours are the strings the
    scripts pass ('white', '#FF6B35', ...). *)
Inductive directive :=
| Rectangle (xy : list Z) (fill outline : option string) (width : Z)
| Text (xy : Z * Z) (text : string) (fnt : font) (fill : string).

(** An image is the blank surface of [Image.new], a surface a directive was
    drawn on, or the result of [Image.resize]. *)
Inductive image :=
| Image_new (mode : string) (size : Z * Z) (color : string)
| Drawn (im : image) (d : directive)
| Resized (im : image) (size : Z * Z).

(** [image.size] *)
Fixpoint image_size (im : image) : Z * Z :=
  match im with
  | Image_new _ size _ => size
  | Drawn im _ => image_size im
  | Resized _ size => size
  end.

(** The size the surface was allocated with by [Image.new]. *)
Fixpoint allocated_size (im : image) : Z * Z :=
  match im with
  | Image_new _ size _ => size
  | Drawn im _ => allocated_size im
  | Resized im _ => allocated_size im
  end.

(** The directives applied to an image, the earliest first. *)
Fixpoint directives (im : image) : list directive :=
  match im with
  | Image_new _ _ _ => []
  | Drawn im d => directives im ++ [d]
  | Resized im _ => directives im
  end.

(** The strings of the text directives, the earliest first. *)
Definition text_of (d : directive) : option string :=
  match d with
  | Text _ s _ _ => Some s
  | Rectangle _ _ _ _ => None
  end.

Definition font_of (d : directive) : option font :=
  match d with
  | Text _ _ f _ => Some f
  | Rectangle _ _ _ _ => None
  end.

Definition drawn_texts (im : image) : list string :=
  omap text_of (directives im).

(** ** The Python run-time *)

Inductive exn :=
| OSError (msg : string)
| KeyError (key : string)
| ValueError (msg : string)
| MemoryError
| KeyboardInterrupt.

Inductive result (A : Type) :=
| Ok (a : A)
| Raise (e : exn).
Arguments Ok {A} a.
Arguments Raise {A} e.

(** What a run does, in the order it does it.  [Subscript k] is the
    evaluation of [record[k]] (a read); [Save] is a file written by
    [image.save(filename, format, quality=q)]; [Print] is a call of
    [print]. *)
Inductive event :=
| Subscript (key : string)
| Save (filename format : string) (quality : Z) (im : image)
| Print (text : string).

(** The side effects among the events: file and console writes. *)
Definition is_effect (ev : event) : bool :=
  match ev with
  | Subscript _ => false
  | Save _ _ _ _ | Print _ => true
  end.

(** The machine a script runs on.  [truetype_oracle path size] is what
    [ImageFont.truetype(path, size)] does there: it returns a font or raises.
    [save_oracle filename] is [Some e] when writing that file raises [e]
    (directory not writable).  [flush_oracle] is [Some e] when the
    interpreter cannot write out the buffered standard output as it exits
    (standard output redirected to a full device).  The command line, the
    environment, the clock and the seed of the random generator are part of
    the host as well. *)
Record host := {
  argv : list string;
  environ : gmap string string;
  clock : Z;
  random_seed : Z;
  truetype_oracle : string -> Z -> result font;
  save_oracle : string -> option exn;
  flush_oracle : option exn;
}.

(** A computation reads the host, logs events and returns or raises. *)
Definition M (A : Type) : Type := host -> list event * result A.

Definition ret {A} (a : A) : M A := fun _ => ([], Ok a).

Definition raise {A} (e : exn) : M A := fun _ => ([], Raise e).

Definition bind {A B} (m : M A) (f : A -> M B) : M B :=
  fun h =>
    match m h with
    | (t1, Ok a) => let '(t2, r) := f a h in (t1 ++ t2, r)
    | (t1, Raise e) => (t1, Raise e)
    end.

(** [try: body except: handler], with the bare [except] clause of the
    scripts: whatever [body] raises, [handler] runs. *)
Definition try_except {A} (body handler : M A) : M A :=
  fun h =>
    match body h with
    | (t1, Ok a) => (t1, Ok a)
    | (t1, Raise _) => let '(t2, r) := handler h in (t1 ++ t2, r)
    end.

Definition emit (ev : event) : M unit := fun _ => ([ev], Ok tt).

Declare Scope py_scope.
Delimit Scope py_scope with py.
Notation "x <- m ;; k" := (bind m (fun x => k))
  (at level 100, m at next level, right associativity) : py_scope.
Notation "m ;; k" := (bind m (fun _ => k))
  (at level 100, right associativity) : py_scope.
Local Open Scope py_scope.

(** [d[k]] on a dict: the value, or [KeyError]. *)
Definition subscript (d : gmap string string) (k : string) : M string :=
  emit (Subscript k) ;;
  match d !! k with
  | Some v => ret v
  | None => raise (KeyError k)
  end.

(** A string literal. *)
Definition lit (s : string) : M string := ret s.

(** An f-string: its parts are evaluated from left to right and
    concatenated. *)
Fixpoint fstring (parts : list (M string)) : M string :=
  match parts with
  | [] => ret ""
  | p :: rest => s <- p ;; r <- fstring rest ;; ret (s +:+ r)
  end.

Definition print (s : M string) : M unit :=
  v <- s ;; emit (Print v).

(** The line feed of ["\nExpected extracted data:"]. *)
Definition nl : string := String (Ascii.ascii_of_nat 10) "".

(** ** Pillow calls *)

Definition ImageFont_truetype (path : string) (size : Z) : M font :=
  fun h => ([], truetype_oracle h path size).

Definition ImageFont_load_default : M font := ret DefaultFont.

(** [draw.rectangle(xy, fill=, outline=, width=)] on the [Draw] object of
    [im]; the arguments are evaluated first, then the surface is painted. *)
Definition draw_rectangle (im : image) (xy : list Z) (fill outline : option string)
    (width : Z) : M image :=
  ret (Drawn im (Rectangle xy fill outline width)).

(** [draw.text(xy, text, font=, fill=)] *)
Definition draw_text (im : image) (xy : Z * Z) (text : M string) (fnt : font)
    (fill : string) : M image :=
  s <- text ;; ret (Drawn im (Text xy s fnt fill)).

(** [image.resize(size)] returns a new image of that size. *)
Definition image_resize (im : image) (size : Z * Z) : image := Resized im size.

(** [image.save(filename, format, quality=q)] *)
Definition image_save (im : image) (filename format : string) (quality : Z) : M unit :=
  fun h =>
    match save_oracle h filename with
    | None => ([Save filename format quality im], Ok tt)
    | Some e => ([], Raise e)
    end.

(** The font file every script asks for. *)
Definition arial : string := "/System/Library/Fonts/Arial.ttf".

(** ** create-test-aadhaar.py *)

Module Aadhaar.

(** lines 26-33 *)
Definition aadhaar_data : gmap string string :=
  list_to_map
    [ ("name", "KATRINA UUENI");
      ("aadhaar_number", "1234 5678 9012");
      ("date_of_birth", "1990-10-19");
      ("address", "Tallinn, Estonia");
      ("gender", "Female");
      ("father_name", "JOHN UUENI") ].

(** lines 16-23 *)
Definition load_fonts : M (font * font * font) :=
  try_except
    (font_large <- ImageFont_truetype arial 24 ;;
     font_medium <- ImageFont_truetype arial 16 ;;
     font_small <- ImageFont_truetype arial 12 ;;
     ret (font_large, font_medium, font_small))
    (font_large <- ImageFont_load_default ;;
     font_medium <- ImageFont_load_default ;;
     font_small <- ImageFont_load_default ;;
     ret (font_large, font_medium, font_small)).

Definition create_test_aadhaar : M unit :=
  let '(width, height) := (600, 400) in
  let image := Image_new "RGB" (width, height) "white" in
  fonts <- load_fonts ;;
  let '(font_large, font_medium, font_small) := fonts in
  (* Draw header *)
  image <- draw_rectangle image [0; 0; width; 60] (Some "#FF6B35") None 1 ;;
  image <- draw_text image (20, 20) (lit "Government of India") font_large "white" ;;
  image <- draw_text image (20, 45) (lit "Aadhaar") font_medium "white" ;;
  (* Draw main content *)
  let y_pos := 80 in
  image <- draw_text image (20, y_pos)
    (fstring [lit "Name: "; subscript aadhaar_data "name"]) font_medium "black" ;;
  image <- draw_text image (20, y_pos + 25)
    (fstring [lit "Aadhaar No: "; subscript aadhaar_data "aadhaar_number"]) font_medium "black" ;;
  image <- draw_text image (20, y_pos + 50)
    (fstring [lit "Date of Birth: "; subscript aadhaar_data "date_of_birth"]) font_medium "black" ;;
  image <- draw_text image (20, y_pos + 75)
    (fstring [lit "Gender: "; subscript aadhaar_data "gender"]) font_medium "black" ;;
  image <- draw_text image (20, y_pos + 100)
    (fstring [lit "Father's Name: "; subscript aadhaar_data "father_name"]) font_medium "black" ;;
  image <- draw_text image (20, y_pos + 125)
    (fstring [lit "Address: "; subscript aadhaar_data "address"]) font_medium "black" ;;
  (* Draw QR code placeholder *)
  image <- draw_rectangle image [400; 80; 580; 260] None (Some "black") 2 ;;
  image <- draw_text image (420, 170) (lit "QR Code") font_small "black" ;;
  (* Draw footer *)
  image <- draw_text image (20, height - 30)
    (lit "This is a test Aadhaar card for development purposes") font_small "gray" ;;
  (* Save image *)
  image_save image "aadhaar.jpg" "JPEG" 95 ;;
  print (lit "Created aadhaar.jpg with Indian Aadhaar data") ;;
  print (lit "") ;;
  print (lit "Expected extracted data:") ;;
  print (fstring [lit "Full Name: "; subscript aadhaar_data "name"]) ;;
  print (fstring [lit "Aadhaar Number: "; subscript aadhaar_data "aadhaar_number"]) ;;
  print (fstring [lit "Date of Birth: "; subscript aadhaar_data "date_of_birth"]) ;;
  print (fstring [lit "Address: "; subscript aadhaar_data "address"]) ;;
  print (fstring [lit "Gender: "; subscript aadhaar_data "gender"]).

(** lines 67-68 *)
Definition main : M unit := create_test_aadhaar.

End Aadhaar.

(** ** create-test-pan.py *)

Module Pan.

(** lines 26-31 *)
Definition pan_data : gmap string string :=
  list_to_map
    [ ("name", "KATRINA UUENI");
      ("pan_number", "ABCDE1234F");
      ("father_name", "JOHN UUENI");
      ("date_of_birth", "1990-10-19") ].

(** lines 16-23 *)
Definition load_fonts : M (font * font * font) :=
  try_except
    (font_large <- ImageFont_truetype arial 24 ;;
     font_medium <- ImageFont_truetype arial 16 ;;
     font_small <- ImageFont_truetype arial 12 ;;
     ret (font_large, font_medium, font_small))
    (font_large <- ImageFont_load_default ;;
     font_medium <- ImageFont_load_default ;;
     font_small <- ImageFont_load_default ;;
     ret (font_large, font_medium, font_small)).

Definition create_test_pan : M unit :=
  let '(width, height) := (600, 400) in
  let image := Image_new "RGB" (width, height) "#D2B48C" in
  fonts <- load_fonts ;;
  let '(font_large, font_medium, font_small) := fonts in
  (* Draw header *)
  image <- draw_rectangle image [0; 0; width; 60] (Some "#8B4513") None 1 ;;
  image <- draw_text image (20, 20) (lit "INCOME TAX DEPARTMENT") font_large "white" ;;
  image <- draw_text image (20, 45) (lit "GOVT. OF INDIA") font_medium "white" ;;
  (* Draw PAN card content *)
  let y_pos := 80 in
  image <- draw_text image (20, y_pos)
    (lit "Permanent Account Number Card") font_medium "black" ;;
  image <- draw_text image (20, y_pos + 30)
    (fstring [lit "Name: "; subscript pan_data "name"]) font_medium "black" ;;
  image <- draw_text image (20, y_pos + 55)
    (fstring [lit "Father's Name: "; subscript pan_data "father_name"]) font_medium "black" ;;
  image <- draw_text image (20, y_pos + 80)
    (fstring [lit "Date of Birth: "; subscript pan_data "date_of_birth"]) font_medium "black" ;;
  image <- draw_text image (20, y_pos + 105)
    (fstring [lit "PAN: "; subscript pan_data "pan_number"]) font_medium "black" ;;
  (* Draw signature placeholder *)
  image <- draw_rectangle image [400; 150; 580; 200] None (Some "black") 1 ;;
  image <- draw_text image (420, 175) (lit "Signature") font_small "black" ;;
  (* Draw footer *)
  image <- draw_text image (20, height - 30)
    (lit "This is a test PAN card for development purposes") font_small "gray" ;;
  (* Save image *)
  image_save image "pan.jpg" "JPEG" 95 ;;
  print (lit "Created pan.jpg with Indian PAN card data") ;;
  print (lit "") ;;
  print (lit "Expected extracted data:") ;;
  print (fstring [lit "Full Name: "; subscript pan_data "name"]) ;;
  print (fstring [lit "PAN Number: "; subscript pan_data "pan_number"]) ;;
  print (fstring [lit "Father's Name: "; subscript pan_data "father_name"]) ;;
  print (fstring [lit "Date of Birth: "; subscript pan_data "date_of_birth"]).

(** lines 63-64 *)
Definition main : M unit := create_test_pan.

End Pan.

(** ** create-test-passport.py *)

Module Passport.

(** lines 11-27, a module-level dict *)
Definition passport_data : gmap string string :=
  list_to_map
    [ ("type", "P");
      ("country_code", "EST");
      ("surname", "UUENI");
      ("given_name", "KATRINA");
      ("personal_code", "49010195221");
      ("date_of_birth", "19.10.1990");
      ("document_number", "KF0250087");
      ("citizenship", "EST");
      ("sex", "N/F");
      ("place_of_birth", "EST");
      ("date_of_issue", "13.02.2023");
      ("date_of_expiry", "13.02.2033");
      ("authority", "PPA/PBGB");
      ("mrz_line1", "P<ESTUUENI<<KATRINA<<<<<<<<<<<<");
      ("mrz_line2", "KF02500875EST9010196F330213049010195221<<<08") ].

(** lines 35-44 *)
Definition load_fonts : M (font * font * font) :=
  try_except
    (font_large <- ImageFont_truetype arial 16 ;;
     font_medium <- ImageFont_truetype arial 12 ;;
     font_small <- ImageFont_truetype arial 10 ;;
     ret (font_large, font_medium, font_small))
    (font_large <- ImageFont_load_default ;;
     font_medium <- ImageFont_load_default ;;
     font_small <- ImageFont_load_default ;;
     ret (font_large, font_medium, font_small)).

Definition create_passport_image : M image :=
  let '(width, height) := (600, 400) in
  let image := Image_new "RGB" (width, height) "white" in
  fonts <- load_fonts ;;
  let '(font_large, font_medium, font_small) := fonts in
  (* Draw header *)
  image <- draw_rectangle image [10; 10; width - 10; 50] None (Some "black") 2 ;;
  image <- draw_text image (20, 20) (lit "ESTONIAN PASSPORT") font_large "black" ;;
  (* Draw document type and country *)
  let y_pos := 70 in
  image <- draw_text image (20, y_pos)
    (fstring [lit "Liik/Type: "; subscript passport_data "type"]) font_medium "black" ;;
  image <- draw_text image (20, y_pos + 20)
    (fstring [lit "Riigi kood/Country code: "; subscript passport_data "country_code"])
    font_medium "black" ;;
  (* Draw personal information *)
  let y_pos := 120 in
  image <- draw_text image (20, y_pos)
    (fstring [lit "1. Perekonnanimi / Surname: "; subscript passport_data "surname"])
    font_medium "black" ;;
  image <- draw_text image (20, y_pos + 20)
    (fstring [lit "2. Eesnimi / Given name: "; subscript passport_data "given_name"])
    font_medium "black" ;;
  image <- draw_text image (20, y_pos + 40)
    (fstring [lit "3. Isikukood / Personal code: "; subscript passport_data "personal_code"])
    font_medium "black" ;;
  image <- draw_text image (20, y_pos + 60)
    (fstring [lit "4. Kodakondsus / Citizenship: "; subscript passport_data "citizenship"])
    font_medium "black" ;;
  image <- draw_text image (20, y_pos + 80)
    (fstring [lit "5. Sünniaeg / Date of birth: "; subscript passport_data "date_of_birth"])
    font_medium "black" ;;
  image <- draw_text image (20, y_pos + 100)
    (fstring [lit "6. Sugu / Sex: "; subscript passport_data "sex"]) font_medium "black" ;;
  image <- draw_text image (20, y_pos + 120)
    (fstring [lit "7. Sünnikoht / Place of birth: Tallinn, Estonia"]) font_medium "black" ;;
  image <- draw_text image (20, y_pos + 140)
    (fstring [lit "8. Aadress / Address: Tallinn, Estonia"]) font_medium "black" ;;
  (* Draw document details *)
  let y_pos := 260 in
  image <- draw_text image (300, y_pos)
    (fstring [lit "Dokumendi number: "; subscript passport_data "document_number"])
    font_medium "black" ;;
  image <- draw_text image (300, y_pos + 20)
    (fstring [lit "8. Välja antud: "; subscript passport_data "date_of_issue"])
    font_medium "black" ;;
  image <- draw_text image (300, y_pos + 40)
    (fstring [lit "9. Kehtiv kuni: "; subscript passport_data "date_of_expiry"])
    font_medium "black" ;;
  image <- draw_text image (300, y_pos + 60)
    (fstring [lit "11. Väljaandja: "; subscript passport_data "authority"])
    font_medium "black" ;;
  image <- draw_text image (300, y_pos + 80)
    (fstring [lit "Address: Police and Border Guard Board, Tallinn, Estonia"])
    font_medium "black" ;;
  (* Draw MRZ at bottom *)
  let y_pos := height - 60 in
  image <- draw_rectangle image [10; y_pos; width - 10; height - 10] None (Some "black") 1 ;;
  image <- draw_text image (15, y_pos + 10) (subscript passport_data "mrz_line1")
    font_small "black" ;;
  image <- draw_text image (15, y_pos + 25) (subscript passport_data "mrz_line2")
    font_small "black" ;;
  ret image.

(** lines 82-97 *)
Definition main : M unit :=
  (* Create the passport image *)
  passport_img <- create_passport_image ;;
  (* Save as JPEG *)
  image_save passport_img "passport.jpg" "JPEG" 95 ;;
  print (lit "Created passport.jpg with Estonian passport data") ;;
  (* Print the data that should be extracted *)
  print (lit (nl +:+ "Expected extracted data:")) ;;
  print (fstring [lit "Full Name: "; subscript passport_data "surname"; lit ", ";
                  subscript passport_data "given_name"]) ;;
  print (fstring [lit "Passport Number: "; subscript passport_data "document_number"]) ;;
  print (fstring [lit "Nationality: Estonia"]) ;;
  print (fstring [lit "Date of Birth: 1990-10-19"]) ;;
  print (fstring [lit "Expiry Date: 2033-02-13"]) ;;
  print (fstring [lit "Issue Date: 2023-02-13"]).

End Passport.

(** ** create-test-visa.py *)

Module Visa.

(** lines 11-29, a module-level dict *)
Definition visa_data : gmap string string :=
  list_to_map
    [ ("visa_type", "Tourist");
      ("visa_category", "e-Visa");
      ("visa_number", "900F3927P");
      ("country", "India");
      ("authority", "BUREAU OF IMMIGRATION INDIA");
      ("issue_date", "14 MAR 2025");
      ("expiry_date", "09 Mar 2026");
      ("place_of_issue", "New Delhi");
      ("purpose_of_visit", "Tourism");
      ("port_of_entry", "IGI AIRPORT, NEW DELHI");
      ("entries", "MULTIPLE");
      ("stay_duration", "Each Stay not to exceed 90 days");
      ("nationality", "Estonia");
      ("passport_number", "KF0250087");
      ("visa_status", "Active");
      ("remarks", "Valid for tourism and leisure activities");
      ("code", "C4") ].

(** lines 37-46 *)
Definition load_fonts : M (font * font * font) :=
  try_except
    (font_large <- ImageFont_truetype arial 14 ;;
     font_medium <- ImageFont_truetype arial 11 ;;
     font_small <- ImageFont_truetype arial 9 ;;
     ret (font_large, font_medium, font_small))
    (font_large <- ImageFont_load_default ;;
     font_medium <- ImageFont_load_default ;;
     font_small <- ImageFont_load_default ;;
     ret (font_large, font_medium, font_small)).

Definition create_visa_image : M image :=
  let '(width, height) := (500, 350) in
  let image := Image_new "RGB" (width, height) "white" in
  fonts <- load_fonts ;;
  let '(font_large, font_medium, font_small) := fonts in
  (* Draw header *)
  image <- draw_rectangle image [10; 10; width - 10; 50] None (Some "black") 2 ;;
  image <- draw_text image (20, 20) (lit "INDIAN VISA") font_large "black" ;;
  (* Draw visa details *)
  let y_pos := 70 in
  image <- draw_text image (20, y_pos)
    (fstring [lit "Visa Type: "; subscript visa_data "visa_type"]) font_medium "black" ;;
  image <- draw_text image (20, y_pos + 20)
    (fstring [lit "Visa Category: "; subscript visa_data "visa_category"]) font_medium "black" ;;
  image <- draw_text image (20, y_pos + 40)
    (fstring [lit "Visa Number: "; subscript visa_data "visa_number"]) font_medium "black" ;;
  image <- draw_text image (20, y_pos + 60)
    (fstring [lit "Country: "; subscript visa_data "country"]) font_medium "black" ;;
  image <- draw_text image (20, y_pos + 80)
    (fstring [lit "Authority: "; subscript visa_data "authority"]) font_medium "black" ;;
  image <- draw_text image (20, y_pos + 100)
    (fstring [lit "Place of Issue: "; subscript visa_data "place_of_issue"]) font_medium "black" ;;
  image <- draw_text image (20, y_pos + 120)
    (fstring [lit "Purpose: "; subscript visa_data "purpose_of_visit"]) font_medium "black" ;;
  (* Draw dates *)
  let y_pos := 200 in
  image <- draw_text image (20, y_pos)
    (fstring [lit "Issue Date: "; subscript visa_data "issue_date"]) font_medium "red" ;;
  image <- draw_text image (20, y_pos + 20)
    (fstring [lit "Expiry Date: "; subscript visa_data "expiry_date"]) font_medium "black" ;;
  (* Draw entry details and additional FRRO fields *)
  let y_pos := 250 in
  image <- draw_text image (20, y_pos)
    (fstring [lit "Port of Entry: "; subscript visa_data "port_of_entry"]) font_medium "black" ;;
  image <- draw_text image (20, y_pos + 20)
    (fstring [lit "Entries: "; subscript visa_data "entries"]) font_medium "black" ;;
  image <- draw_text image (20, y_pos + 40)
    (fstring [lit "Stay Duration: "; subscript visa_data "stay_duration"]) font_medium "black" ;;
  image <- draw_text image (20, y_pos + 60)
    (fstring [lit "Nationality: "; subscript visa_data "nationality"]) font_medium "black" ;;
  image <- draw_text image (20, y_pos + 80)
    (fstring [lit "Passport No: "; subscript visa_data "passport_number"]) font_medium "black" ;;
  image <- draw_text image (20, y_pos + 100)
    (fstring [lit "Status: "; subscript visa_data "visa_status"]) font_medium "black" ;;
  image <- draw_text image (20, y_pos + 120)
    (fstring [lit "Remarks: "; subscript visa_data "remarks"]) font_medium "black" ;;
  (* Draw border *)
  image <- draw_rectangle image [5; 5; width - 5; height - 5] None (Some "blue") 3 ;;
  (* Adjust image height to fit all content *)
  ret (image_resize image (width, 450)).

(** lines 83-107 *)
Definition main : M unit :=
  (* Create the visa image *)
  visa_img <- create_visa_image ;;
  (* Save as JPEG *)
  image_save visa_img "visa.jpg" "JPEG" 95 ;;
  print (lit "Created visa.jpg with Indian visa data") ;;
  (* Print the data that should be extracted *)
  print (lit (nl +:+ "Expected extracted data (FRRO C-Form Ready):")) ;;
  print (fstring [lit "Visa Type: "; subscript visa_data "visa_type"]) ;;
  print (fstring [lit "Visa Category: "; subscript visa_data "visa_category"]) ;;
  print (fstring [lit "Visa Number: "; subscript visa_data "visa_number"]) ;;
  print (fstring [lit "Country: "; subscript visa_data "country"]) ;;
  print (fstring [lit "Place of Issue: "; subscript visa_data "place_of_issue"]) ;;
  print (fstring [lit "Purpose of Visit: "; subscript visa_data "purpose_of_visit"]) ;;
  print (fstring [lit "Issue Date: 2025-03-14"]) ;;
  print (fstring [lit "Expiry Date: 2026-03-09"]) ;;
  print (fstring [lit "Port of Entry: "; subscript visa_data "port_of_entry"]) ;;
  print (fstring [lit "Entries: "; subscript visa_data "entries"]) ;;
  print (fstring [lit "Duration of Stay: "; subscript visa_data "stay_duration"]) ;;
  print (fstring [lit "Nationality: "; subscript visa_data "nationality"]) ;;
  print (fstring [lit "Passport Number: "; subscript visa_data "passport_number"]) ;;
  print (fstring [lit "Visa Status: "; subscript visa_data "visa_status"]) ;;
  print (fstring [lit "Remarks: "; subscript visa_data "remarks"]).

End Visa.

(** ** The four scripts together *)

Inductive script := aadhaar | pan | passport | visa.

(** What the interpreter executes for [python3 create-test-<s>.py]. *)
Definition main (s : script) : M unit :=
  match s with
  | aadhaar => Aadhaar.main
  | pan => Pan.main
  | passport => Passport.main
  | visa => Visa.main
  end.

Definition log (s : script) (h : host) : list event := (main s h).1.
Definition outcome (s : script) (h : host) : result unit := (main s h).2.

(** The log of the function that issues the draw calls. *)
Definition renderer_log (s : script) (h : host) : list event :=
  match s with
  | aadhaar => (Aadhaar.create_test_aadhaar h).1
  | pan => (Pan.create_test_pan h).1
  | passport => (Passport.create_passport_image h).1
  | visa => (Visa.create_visa_image h).1
  end.

Definition record_of (s : script) : gmap string string :=
  match s with
  | aadhaar => Aadhaar.aadhaar_data
  | pan => Pan.pan_data
  | passport => Passport.passport_data
  | visa => Visa.visa_data
  end.

Definition load_fonts (s : script) : M (font * font * font) :=
  match s with
  | aadhaar => Aadhaar.load_fonts
  | pan => Pan.load_fonts
  | passport => Passport.load_fonts
  | visa => Visa.load_fonts
  end.

(** The sizes of the large, medium and small tier of each script. *)
Definition font_sizes (s : script) : list Z :=
  match s with
  | aadhaar | pan => [24; 16; 12]
  | passport => [16; 12; 10]
  | visa => [14; 11; 9]
  end.

(** The first argument of the [save] call of each script. *)
Definition output_file (s : script) : string :=
  match s with
  | aadhaar => "aadhaar.jpg"
  | pan => "pan.jpg"
  | passport => "passport.jpg"
  | visa => "visa.jpg"
  end.

(** *** Views of a log *)

Definition saves (t : list event) : list (string * string * Z * image) :=
  omap (fun ev => match ev with
                  | Save f fmt q im => Some (f, fmt, q, im)
                  | _ => None
                  end) t.

Definition stdout (t : list event) : list string :=
  omap (fun ev => match ev with Print s => Some s | _ => None end) t.

(** The exit status of the interpreter for a run with log [t] and result
    [r].  What was printed is buffered and written out when the interpreter
    exits; when that fails the status is 120.  Otherwise it is 0 when the
    script ran to its end, 130 when [KeyboardInterrupt] reached the top
    level and 1 when any other exception did. *)
Definition exit_status (h : host) (t : list event) (r : result unit) : Z :=
  match stdout t, flush_oracle h with
  | _ :: _, Some _ => 120
  | _, _ =>
      match r with
      | Ok _ => 0
      | Raise KeyboardInterrupt => 130
      | Raise _ => 1
      end
  end.

(** [contains needle s]: [needle] occurs in [s]. *)
Fixpoint contains (needle s : string) : bool :=
  String.prefix needle s ||
  match s with
  | EmptyString => false
  | String _ rest => contains needle rest
  end.

(** A line ["Label: value"] is split at its first [": "]. *)
Fixpoint field_of (s : string) : option (string * string) :=
  match s with
  | EmptyString => None
  | String c rest =>
      if String.prefix ": " s then Some (EmptyString, String.substring 2 (String.length s) s)
      else match field_of rest with
           | Some (label, value) => Some (String c label, value)
           | None => None
           end
  end.

(** The lines printed after the header ["Expected extracted data ..."]. *)
Fixpoint expected_section (out : list string) : list string :=
  match out with
  | [] => []
  | line :: rest =>
      if contains "Expected extracted data" line then rest else expected_section rest
  end.

(** The fields a run reports as expected, as (label, value). *)
Definition reported (t : list event) : list (string * string) :=
  omap field_of (expected_section (stdout t)).

(** The fields drawn on an image, as (label, value). *)
Definition drawn_fields (im : image) : list (string * string) :=
  omap field_of (drawn_texts im).

(** *** Hosts *)

(** A host without the font file: every [truetype] call raises [OSError]. *)
Definition linux_host : host :=
  {| argv := ["create-test-aadhaar.py"];
     environ := ∅;
     clock := 0;
     random_seed := 0;
     truetype_oracle := fun _ _ => Raise (OSError "cannot open resource");
     save_oracle := fun _ => None;
     flush_oracle := None |}.

(** A host with the font file. *)
Definition mac_host : host :=
  {| argv := ["create-test-visa.py"];
     environ := {[ "HOME" := "/Users/dev" ]};
     clock := 1730000000;
     random_seed := 7;
     truetype_oracle := fun path size => Ok (FreeTypeFont path size);
     save_oracle := fun _ => None;
     flush_oracle := None |}.

(** A host with the font file that differs from [mac_host] in everything a
    script does not ask for. *)
Definition other_mac_host : host :=
  {| argv := ["create-test-visa.py"; "--verbose"];
     environ := {[ "TZ" := "UTC" ]};
     clock := 1790000000;
     random_seed := 4242;
     truetype_oracle := fun path size =>
       if String.eqb path arial then Ok (FreeTypeFont path size) else Raise MemoryError;
     save_oracle := fun f =>
       if String.eqb f "visa.jpg" then None else Some (OSError "No space left on device");
     flush_oracle := None |}.

(** A host on which the first font loads and the user interrupts the second
    [truetype] call. *)
Definition interrupted_host : host :=
  {| argv := [];
     environ := ∅;
     clock := 0;
     random_seed := 0;
     truetype_oracle := fun path size =>
       if size =? 12 then Raise KeyboardInterrupt else Ok (FreeTypeFont path size);
     save_oracle := fun _ => None;
     flush_oracle := None |}.

(** A host whose working directory cannot be written. *)
Definition readonly_host : host :=
  {| argv := [];
     environ := ∅;
     clock := 0;
     random_seed := 0;
     truetype_oracle := fun _ _ => Raise (OSError "cannot open resource");
     save_oracle := fun _ => Some (OSError "Permission denied");
     flush_oracle := None |}.


(** *** Properties of a run *)

(** Every text directive of [im] is drawn with the font [f]. *)
Definition uses_only (f : font) (im : image) : Prop :=
  forall d fnt, In d (directives im) -> font_of d = Some fnt -> fnt = f.

(** The first side effect of a log, if it has one. *)
Fixpoint first_effect (t : list event) : option event :=
  match t with
  | [] => None
  | ev :: rest => if is_effect ev then Some ev else first_effect rest
  end.


(** No event of the log is a side effect. *)
Definition pure_log (t : list event) : Prop :=
  Forall (fun ev => is_effect ev = false) t.

(** The reported fields whose value is read from the record, as (label
    on the console, key of the record, label on the image). *)
Definition reported_from_record (s : script) : list (string * string * string) :=
  match s with
  | aadhaar =>
      [ ("Full Name", "name", "Name");
        ("Aadhaar Number", "aadhaar_number", "Aadhaar No");
        ("Date of Birth", "date_of_birth", "Date of Birth");
        ("Address", "address", "Address");
        ("Gender", "gender", "Gender") ]
  | pan =>
      [ ("Full Name", "name", "Name");
        ("PAN Number", "pan_number", "PAN");
        ("Father's Name", "father_name", "Father's Name");
        ("Date of Birth", "date_of_birth", "Date of Birth") ]
  | passport =>
      [ ("Passport Number", "document_number", "Dokumendi number") ]
  | visa =>
      [ ("Visa Type", "visa_type", "Visa Type");
        ("Visa Category", "visa_category", "Visa Category");
        ("Visa Number", "visa_number", "Visa Number");
        ("Country", "country", "Country");
        ("Place of Issue", "place_of_issue", "Place of Issue");
        ("Purpose of Visit", "purpose_of_visit", "Purpose");
        ("Port of Entry", "port_of_entry", "Port of Entry");
        ("Entries", "entries", "Entries");
        ("Duration of Stay", "stay_duration", "Stay Duration");
        ("Nationality", "nationality", "Nationality");
        ("Passport Number", "passport_number", "Passport No");
        ("Visa Status", "visa_status", "Status");
        ("Remarks", "remarks", "Remarks") ]
  end.

(** The reported fields printed otherwise: the passport's full name, put
    together from surname and given name, and the fields printed from a
    literal of their own. *)
Definition reported_otherwise (s : script) : list string :=
  match s with
  | aadhaar | pan => []
  | passport => ["Full Name"; "Nationality"; "Date of Birth"; "Expiry Date"; "Issue Date"]
  | visa => ["Issue Date"; "Expiry Date"]
  end.

(** Every reported value is the value of a field drawn on the saved image. *)
Definition report_matches_image (s : script) (h : host) : Prop :=
  forall label value f fmt q im,
    In (label, value) (reported (log s h)) ->
    In (f, fmt, q, im) (saves (log s h)) ->
    exists dlabel, In (dlabel, value) (drawn_fields im).

(** The two hosts resolve the fonts of script [s] alike. *)
Definition same_fonts (s : script) (h1 h2 : host) : Prop :=
  forall size, In size (font_sizes s) ->
    truetype_oracle h1 arial size = truetype_oracle h2 arial size.

(** The host [h] with a working directory in which every save succeeds. *)
Definition writable (h : host) : host :=
  {| argv := argv h;
     environ := environ h;
     clock := clock h;
     random_seed := random_seed h;
     truetype_oracle := truetype_oracle h;
     save_oracle := fun _ => None;
     flush_oracle := flush_oracle h |}.

(** A text directive is anchored inside a surface of the given size: its
    top-left corner is a pixel of the surface. *)
Definition anchored_inside (size : Z * Z) (d : directive) : bool :=
  match d with
  | Text (x, y) _ _ _ => (0 <=? x) && (x <? size.1) && (0 <=? y) && (y <? size.2)
  | Rectangle _ _ _ _ => true
  end.

(** ** The module-level records as globals

    [passport_data] and [visa_data] are module-level names:
    [create_passport_image], [create_visa_image] and the main blocks read
    whatever dict the name holds when they run.  The definitions below are
    these functions for any value [d] of the global; at the dict the module
    assigns they are the definitions above. *)

Module PassportOn.

(** lines 29-80 *)
Definition create_passport_image (passport_data : gmap string string) : M image :=
  let '(width, height) := (600, 400) in
  let image := Image_new "RGB" (width, height) "white" in
  fonts <- Passport.load_fonts ;;
  let '(font_large, font_medium, font_small) := fonts in
  (* Draw header *)
  image <- draw_rectangle image [10; 10; width - 10; 50] None (Some "black") 2 ;;
  image <- draw_text image (20, 20) (lit "ESTONIAN PASSPORT") font_large "black" ;;
  (* Draw document type and country *)
  let y_pos := 70 in
  image <- draw_text image (20, y_pos)
    (fstring [lit "Liik/Type: "; subscript passport_data "type"]) font_medium "black" ;;
  image <- draw_text image (20, y_pos + 20)
    (fstring [lit "Riigi kood/Country code: "; subscript passport_data "country_code"])
    font_medium "black" ;;
  (* Draw personal information *)
  let y_pos := 120 in
  image <- draw_text image (20, y_pos)
    (fstring [lit "1. Perekonnanimi / Surname: "; subscript passport_data "surname"])
    font_medium "black" ;;
  image <- draw_text image (20, y_pos + 20)
    (fstring [lit "2. Eesnimi / Given name: "; subscript passport_data "given_name"])
    font_medium "black" ;;
  image <- draw_text image (20, y_pos + 40)
    (fstring [lit "3. Isikukood / Personal code: "; subscript passport_data "personal_code"])
    font_medium "black" ;;
  image <- draw_text image (20, y_pos + 60)
    (fstring [lit "4. Kodakondsus / Citizenship: "; subscript passport_data "citizenship"])
    font_medium "black" ;;
  image <- draw_text image (20, y_pos + 80)
    (fstring [lit "5. Sünniaeg / Date of birth: "; subscript passport_data "date_of_birth"])
    font_medium "black" ;;
  image <- draw_text image (20, y_pos + 100)
    (fstring [lit "6. Sugu / Sex: "; subscript passport_data "sex"]) font_medium "black" ;;
  image <- draw_text image (20, y_pos + 120)
    (fstring [lit "7. Sünnikoht / Place of birth: Tallinn, Estonia"]) font_medium "black" ;;
  image <- draw_text image (20, y_pos + 140)
    (fstring [lit "8. Aadress / Address: Tallinn, Estonia"]) font_medium "black" ;;
  (* Draw document details *)
  let y_pos := 260 in
  image <- draw_text image (300, y_pos)
    (fstring [lit "Dokumendi number: "; subscript passport_data "document_number"])
    font_medium "black" ;;
  image <- draw_text image (300, y_pos + 20)
    (fstring [lit "8. Välja antud: "; subscript passport_data "date_of_issue"])
    font_medium "black" ;;
  image <- draw_text image (300, y_pos + 40)
    (fstring [lit "9. Kehtiv kuni: "; subscript passport_data "date_of_expiry"])
    font_medium "black" ;;
  image <- draw_text image (300, y_pos + 60)
    (fstring [lit "11. Väljaandja: "; subscript passport_data "authority"])
    font_medium "black" ;;
  image <- draw_text image (300, y_pos + 80)
    (fstring [lit "Address: Police and Border Guard Board, Tallinn, Estonia"])
    font_medium "black" ;;
  (* Draw MRZ at bottom *)
  let y_pos := height - 60 in
  image <- draw_rectangle image [10; y_pos; width - 10; height - 10] None (Some "black") 1 ;;
  image <- draw_text image (15, y_pos + 10) (subscript passport_data "mrz_line1")
    font_small "black" ;;
  image <- draw_text image (15, y_pos + 25) (subscript passport_data "mrz_line2")
    font_small "black" ;;
  ret image.

(** lines 82-97 *)
Definition main (passport_data : gmap string string) : M unit :=
  (* Create the passport image *)
  passport_img <- create_passport_image passport_data ;;
  (* Save as JPEG *)
  image_save passport_img "passport.jpg" "JPEG" 95 ;;
  print (lit "Created passport.jpg with Estonian passport data") ;;
  (* Print the data that should be extracted *)
  print (lit (nl +:+ "Expected extracted data:")) ;;
  print (fstring [lit "Full Name: "; subscript passport_data "surname"; lit ", ";
                  subscript passport_data "given_name"]) ;;
  print (fstring [lit "Passport Number: "; subscript passport_data "document_number"]) ;;
  print (fstring [lit "Nationality: Estonia"]) ;;
  print (fstring [lit "Date of Birth: 1990-10-19"]) ;;
  print (fstring [lit "Expiry Date: 2033-02-13"]) ;;
  print (fstring [lit "Issue Date: 2023-02-13"]).

End PassportOn.

Module VisaOn.

(** lines 31-81 *)
Definition create_visa_image (visa_data : gmap string string) : M image :=
  let '(width, height) := (500, 350) in
  let image := Image_new "RGB" (width, height) "white" in
  fonts <- Visa.load_fonts ;;
  let '(font_large, font_medium, font_small) := fonts in
  (* Draw header *)
  image <- draw_rectangle image [10; 10; width - 10; 50] None (Some "black") 2 ;;
  image <- draw_text image (20, 20) (lit "INDIAN VISA") font_large "black" ;;
  (* Draw visa details *)
  let y_pos := 70 in
  image <- draw_text image (20, y_pos)
    (fstring [lit "Visa Type: "; subscript visa_data "visa_type"]) font_medium "black" ;;
  image <- draw_text image (20, y_pos + 20)
    (fstring [lit "Visa Category: "; subscript visa_data "visa_category"]) font_medium "black" ;;
  image <- draw_text image (20, y_pos + 40)
    (fstring [lit "Visa Number: "; subscript visa_data "visa_number"]) font_medium "black" ;;
  image <- draw_text image (20, y_pos + 60)
    (fstring [lit "Country: "; subscript visa_data "country"]) font_medium "black" ;;
  image <- draw_text image (20, y_pos + 80)
    (fstring [lit "Authority: "; subscript visa_data "authority"]) font_medium "black" ;;
  image <- draw_text image (20, y_pos + 100)
    (fstring [lit "Place of Issue: "; subscript visa_data "place_of_issue"]) font_medium "black" ;;
  image <- draw_text image (20, y_pos + 120)
    (fstring [lit "Purpose: "; subscript visa_data "purpose_of_visit"]) font_medium "black" ;;
  (* Draw dates *)
  let y_pos := 200 in
  image <- draw_text image (20, y_pos)
    (fstring [lit "Issue Date: "; subscript visa_data "issue_date"]) font_medium "red" ;;
  image <- draw_text image (20, y_pos + 20)
    (fstring [lit "Expiry Date: "; subscript visa_data "expiry_date"]) font_medium "black" ;;
  (* Draw entry details and additional FRRO fields *)
  let y_pos := 250 in
  image <- draw_text image (20, y_pos)
    (fstring [lit "Port of Entry: "; subscript visa_data "port_of_entry"]) font_medium "black" ;;
  image <- draw_text image (20, y_pos + 20)
    (fstring [lit "Entries: "; subscript visa_data "entries"]) font_medium "black" ;;
  image <- draw_text image (20, y_pos + 40)
    (fstring [lit "Stay Duration: "; subscript visa_data "stay_duration"]) font_medium "black" ;;
  image <- draw_text image (20, y_pos + 60)
    (fstring [lit "Nationality: "; subscript visa_data "nationality"]) font_medium "black" ;;
  image <- draw_text image (20, y_pos + 80)
    (fstring [lit "Passport No: "; subscript visa_data "passport_number"]) font_medium "black" ;;
  image <- draw_text image (20, y_pos + 100)
    (fstring [lit "Status: "; subscript visa_data "visa_status"]) font_medium "black" ;;
  image <- draw_text image (20, y_pos + 120)
    (fstring [lit "Remarks: "; subscript visa_data "remarks"]) font_medium "black" ;;
  (* Draw border *)
  image <- draw_rectangle image [5; 5; width - 5; height - 5] None (Some "blue") 3 ;;
  (* Adjust image height to fit all content *)
  ret (image_resize image (width, 450)).

(** lines 83-107 *)
Definition main (visa_data : gmap string string) : M unit :=
  (* Create the visa image *)
  visa_img <- create_visa_image visa_data ;;
  (* Save as JPEG *)
  image_save visa_img "visa.jpg" "JPEG" 95 ;;
  print (lit "Created visa.jpg with Indian visa data") ;;
  (* Print the data that should be extracted *)
  print (lit (nl +:+ "Expected extracted data (FRRO C-Form Ready):")) ;;
  print (fstring [lit "Visa Type: "; subscript visa_data "visa_type"]) ;;
  print (fstring [lit "Visa Category: "; subscript visa_data "visa_category"]) ;;
  print (fstring [lit "Visa Number: "; subscript visa_data "visa_number"]) ;;
  print (fstring [lit "Country: "; subscript visa_data "country"]) ;;
  print (fstring [lit "Place of Issue: "; subscript visa_data "place_of_issue"]) ;;
  print (fstring [lit "Purpose of Visit: "; subscript visa_data "purpose_of_visit"]) ;;
  print (fstring [lit "Issue Date: 2025-03-14"]) ;;
  print (fstring [lit "Expiry Date: 2026-03-09"]) ;;
  print (fstring [lit "Port of Entry: "; subscript visa_data "port_of_entry"]) ;;
  print (fstring [lit "Entries: "; subscript visa_data "entries"]) ;;
  print (fstring [lit "Duration of Stay: "; subscript visa_data "stay_duration"]) ;;
  print (fstring [lit "Nationality: "; subscript visa_data "nationality"]) ;;
  print (fstring [lit "Passport Number: "; subscript visa_data "passport_number"]) ;;
  print (fstring [lit "Visa Status: "; subscript visa_data "visa_status"]) ;;
  print (fstring [lit "Remarks: "; subscript visa_data "remarks"]).

End VisaOn.

(** The keys the passport renderer subscripts, in the order of the draw
    calls. *)
Definition passport_keys : list string :=
  [ "type"; "country_code"; "surname"; "given_name"; "personal_code"; "citizenship";
    "date_of_birth"; "sex"; "document_number"; "date_of_issue"; "date_of_expiry";
    "authority"; "mrz_line1"; "mrz_line2" ].

(** The keys the visa renderer subscripts, in the order of the draw calls. *)
Definition visa_keys : list string :=
  [ "visa_type"; "visa_category"; "visa_number"; "country"; "authority";
    "place_of_issue"; "purpose_of_visit"; "issue_date"; "expiry_date";
    "port_of_entry"; "entries"; "stay_duration"; "nationality"; "passport_number";
    "visa_status"; "remarks" ].

(** The first key of [keys] that [d] lacks. *)
Fixpoint first_missing (d : gmap string string) (keys : list string) : option string :=
  match keys with
  | [] => None
  | k :: rest =>
      match d !! k with
      | Some _ => first_missing d rest
      | None => Some k
      end
  end.

(** The keys of [keys] up to and including the first one that [d] lacks. *)
Fixpoint read_until_missing (d : gmap string string) (keys : list string) : list string :=
  match keys with
  | [] => []
  | k :: rest =>
      k :: match d !! k with
           | Some _ => read_until_missing d rest
           | None => []
           end
  end.

(** Where the passport renderer draws each entry of the record: key, anchor
    and the label put before the value. *)
Definition passport_layout : list (string * (Z * Z) * string) :=
  [ ("type", (20, 70), "Liik/Type: ");
    ("country_code", (20, 90), "Riigi kood/Country code: ");
    ("surname", (20, 120), "1. Perekonnanimi / Surname: ");
    ("given_name", (20, 140), "2. Eesnimi / Given name: ");
    ("personal_code", (20, 160), "3. Isikukood / Personal code: ");
    ("citizenship", (20, 180), "4. Kodakondsus / Citizenship: ");
    ("date_of_birth", (20, 200), "5. Sünniaeg / Date of birth: ");
    ("sex", (20, 220), "6. Sugu / Sex: ");
    ("document_number", (300, 260), "Dokumendi number: ");
    ("date_of_issue", (300, 280), "8. Välja antud: ");
    ("date_of_expiry", (300, 300), "9. Kehtiv kuni: ");
    ("authority", (300, 320), "11. Väljaandja: ");
    ("mrz_line1", (15, 350), "");
    ("mrz_line2", (15, 365), "") ].

(** Where the visa renderer draws each entry of the record. *)
Definition visa_layout : list (string * (Z * Z) * string) :=
  [ ("visa_type", (20, 70), "Visa Type: ");
    ("visa_category", (20, 90), "Visa Category: ");
    ("visa_number", (20, 110), "Visa Number: ");
    ("country", (20, 130), "Country: ");
    ("authority", (20, 150), "Authority: ");
    ("place_of_issue", (20, 170), "Place of Issue: ");
    ("purpose_of_visit", (20, 190), "Purpose: ");
    ("issue_date", (20, 200), "Issue Date: ");
    ("expiry_date", (20, 220), "Expiry Date: ");
    ("port_of_entry", (20, 250), "Port of Entry: ");
    ("entries", (20, 270), "Entries: ");
    ("stay_duration", (20, 290), "Stay Duration: ");
    ("nationality", (20, 310), "Nationality: ");
    ("passport_number", (20, 330), "Passport No: ");
    ("visa_status", (20, 350), "Status: ");
    ("remarks", (20, 370), "Remarks: ") ].

(** The entries of a record that no run of the script reads. *)
Definition never_read (s : script) : list string :=
  match s with
  | aadhaar | pan => []
  | passport => ["place_of_birth"]
  | visa => ["code"]
  end.

(** A rectangle directive is given by four coordinates, ordered and between
    0 and the width and height of the surface, with a stroke of at least one
    pixel. *)
Definition rectangle_within (size : Z * Z) (d : directive) : Prop :=
  match d with
  | Rectangle [x0; y0; x1; y1] _ _ width =>
      0 <= x0 <= x1 /\ x1 <= size.1 /\ 0 <= y0 <= y1 /\ y1 <= size.2 /\ 1 <= width
  | Rectangle _ _ _ _ => False
  | Text _ _ _ _ => True
  end.

(** A host like [mac_host] on which the 9-point font is another face. *)
Definition small_font_host : host :=
  {| argv := [];
     environ := ∅;
     clock := 0;
     random_seed := 0;
     truetype_oracle := fun path size =>
       if size =? 9 then Ok (FreeTypeFont "/Library/Fonts/Courier.ttf" 9)
       else Ok (FreeTypeFont path size);
     save_oracle := fun _ => None;
     flush_oracle := None |}.

(** Records another module could have put in the globals. *)
Definition passport_without_sex : gmap string string :=
  delete "sex" Passport.passport_data.

Definition passport_born_2000 : gmap string string :=
  <["date_of_birth" := "01.01.2000"]> Passport.passport_data.

Definition visa_without_remarks : gmap string string :=
  delete "remarks" Visa.visa_data.

Definition visa_business : gmap string string :=
  <["visa_type" := "Business"]> (<["issue_date" := "01 JAN 2024"]> Visa.visa_data).

(** The number of draw calls of each script. *)
Definition directive_count (s : script) : nat :=
  match s with
  | aadhaar => 12
  | pan => 11
  | passport => 20
  | visa => 19
  end.

(** The events of a log before its first side effect. *)
Fixpoint before_first_effect (t : list event) : list event :=
  match t with
  | [] => []
  | ev :: rest => if is_effect ev then [] else ev :: before_first_effect rest
  end.

(** The field [dlabel] is on the image with the value [value]: a text
    directive anchored inside the surface has the string "dlabel: value". *)
Definition drawn_on_image (im : image) (dlabel value : string) : Prop :=
  exists d text,
    In d (directives im) /\
    text_of d = Some text /\
    field_of text = Some (dlabel, value) /\
    anchored_inside (allocated_size im) d = true.

(** The reported fields of the visa script whose text line is anchored
    below the surface. *)
Definition below_surface (s : script) : list string :=
  match s with
  | visa => ["Visa Status"; "Remarks"]
  | aadhaar | pan | passport => []
  end.

(** * Proofs *)

(** Every run is decided by at most four answers of the host: those to the
    three [truetype] calls and to the [save] call.  [host_step] splits on the
    next answer the computed run is waiting for, or takes it from a
    hypothesis. *)
Ltac host_step :=
  match goal with
  | H : ?o ?p ?n = _ |- context [match ?o ?p ?n with Ok _ => _ | Raise _ => _ end] =>
      rewrite H; cbv beta iota
  | H : ?o ?f = _ |- context [match ?o ?f with Some _ => _ | None => _ end] =>
      rewrite H; cbv beta iota
  | |- context [match ?o ?p ?n with Ok _ => _ | Raise _ => _ end] =>
      let E := fresh "Hfont" in destruct (o p n) eqn:E; cbv beta iota
  | |- context [match ?o ?f with Some _ => _ | None => _ end] =>
      let E := fresh "Hsave" in destruct (o f) eqn:E; cbv beta iota
  end.

Ltac in_list := repeat first [left; reflexivity | right].

(** Membership hypotheses over computed lists. *)
Ltac out_list :=
  repeat match goal with
         | H : False |- _ => destruct H
         | H : _ \/ _ |- _ => destruct H as [H | H]
         | H : _ = _ |- _ => progress simplify_eq
         end.

(** [run_cases s h] computes the run of each script on [h] once and leaves
    one goal for each combination of answers; the logs and outcomes in the
    goal are then explicit lists and values. *)
Ltac host_step_in E :=
  match type of E with
  | context [match ?o ?p ?n with Ok _ => _ | Raise _ => _ end] =>
      first [ match goal with H : o p n = _ |- _ => rewrite H in E end
            | let F := fresh "Hfont" in destruct (o p n) eqn:F ];
      cbv beta iota in E
  | context [match ?o ?f with Some _ => _ | None => _ end] =>
      first [ match goal with H : o f = _ |- _ => rewrite H in E end
            | let F := fresh "Hsave" in destruct (o f) eqn:F ];
      cbv beta iota in E
  end.

Ltac compute_run m :=
  let t := fresh "run" in
  let E := fresh "Hrun" in
  remember m as t eqn:E; vm_compute in E; repeat host_step_in E; subst t.

Ltac run_cases s h :=
  destruct s; destruct h as [? ? ? ? tto svo flo];
  unfold log, outcome, renderer_log, arial, output_file in *;
  cbn [truetype_oracle save_oracle flush_oracle font_sizes In] in *;
  out_list;
  repeat match goal with
         | |- context [main ?s' ?h'] => compute_run (main s' h')
         | |- context [Aadhaar.create_test_aadhaar ?h'] =>
             compute_run (Aadhaar.create_test_aadhaar h')
         | |- context [Pan.create_test_pan ?h'] => compute_run (Pan.create_test_pan h')
         | |- context [Passport.create_passport_image ?h'] =>
             compute_run (Passport.create_passport_image h')
         | |- context [Visa.create_visa_image ?h'] =>
             compute_run (Visa.create_visa_image h')
         end;
  cbn [fst snd] in *.


(** Find the directive of a computed list that puts a field on the image. *)
Ltac pick_directive l :=
  match l with
  | ?d :: ?rest =>
      first [ exists d; eexists;
              split; [vm_compute; in_list
                     | split; [reflexivity
                              | split; [vm_compute; reflexivity | vm_compute; reflexivity]]]
            | pick_directive rest ]
  end.

Ltac solve_uses_only :=
  let d := fresh "d" in
  let fnt := fresh "fnt" in
  let Hd := fresh "Hd" in
  let Hf := fresh "Hf" in
  intros d fnt Hd Hf; vm_compute in Hd; out_list; vm_compute in Hf;
  first [discriminate Hf | congruence].

(** ** The try/except block *)

Lemma load_fonts_total (s : script) (h : host) :
  exists fonts, load_fonts s h = ([], Ok fonts).
Proof.
  destruct s; destruct h as [? ? ? ? tto svo flo]; vm_compute;
    repeat host_step; eauto.
Qed.

(** C10.  When any of the three [truetype] calls of a script raises, whatever
    the exception, the large, medium and small font are all bound to the one
    built-in default font, and every text directive of an image the script
    saves is drawn with it. *)
Theorem fallback_binds_default (s : script) (h : host) (size : Z) (e : exn) :
  In size (font_sizes s) ->
  truetype_oracle h arial size = Raise e ->
  load_fonts s h = ([], Ok (DefaultFont, DefaultFont, DefaultFont)) /\
  forall f fmt q im, In (f, fmt, q, im) (saves (log s h)) -> uses_only DefaultFont im.
Proof.
  intros Hsize Hraise. split.
  - destruct s; destruct h as [? ? ? ? tto svo flo]; vm_compute in *;
      out_list; repeat host_step; reflexivity.
  - intros f fmt q im. run_cases s h; intros Hin; vm_compute in Hin; out_list;
      solve_uses_only.
Qed.

Lemma fallback_binds_default_witness :
  truetype_oracle interrupted_host arial 16 = Ok (FreeTypeFont arial 16) /\
  truetype_oracle interrupted_host arial 12 = Raise KeyboardInterrupt /\
  load_fonts passport interrupted_host = ([], Ok (DefaultFont, DefaultFont, DefaultFont)).
Proof.
  split; [reflexivity | split; [reflexivity | ]].
  apply (fallback_binds_default passport interrupted_host 12 KeyboardInterrupt);
    [simpl; tauto | reflexivity].
Defined.

(** The only exception that leaves a script is the one its [save] call
    raises. *)
Lemma only_save_raises (s : script) (h : host) (e : exn) :
  outcome s h = Raise e -> save_oracle h (output_file s) = Some e.
Proof.
  run_cases s h; intros; congruence.
Qed.



(** ** What is written, and where *)

(** C8 (amended).  A run writes at most one file: exactly one when its save
    call succeeds, under the fixed name of the script, as JPEG at quality 95,
    and none when the save call raises.  The name does not depend on the
    host. *)
Theorem one_jpeg_per_run (s : script) (h : host) :
  In (output_file s) ["aadhaar.jpg"; "pan.jpg"; "passport.jpg"; "visa.jpg"] /\
  match save_oracle h (output_file s) with
  | None =>
      exists im,
        saves (log s h) = [(output_file s, "JPEG", 95, im)] /\
        length (directives im) = directive_count s /\
        first_effect (log s h) = Some (Save (output_file s) "JPEG" 95 im)
  | Some _ => saves (log s h) = []
  end.
Proof.
  split; [destruct s; cbn; tauto | ].
  destruct (save_oracle h (output_file s)) as [e | ] eqn:Hsave;
    run_cases s h; try reflexivity;
    (eexists; split; [reflexivity | split; reflexivity]).
Qed.

Lemma one_jpeg_per_run_witness :
  save_oracle mac_host (output_file pan) = None /\
  exists im, saves (log pan mac_host) = [("pan.jpg", "JPEG", 95, im)].
Proof.
  split; [reflexivity | ].
  destruct (one_jpeg_per_run pan mac_host) as [_ (im & Him & _)].
  exists im. exact Him.
Defined.

(** The claim C8 as stated fails where the working directory cannot be
    written: the run writes no file. *)
Lemma no_file_when_save_fails :
  save_oracle readonly_host (output_file aadhaar) = Some (OSError "Permission denied") /\
  saves (log aadhaar readonly_host) = [] /\
  ~ (forall s h, exists x, saves (log s h) = [x]).
Proof.
  split; [reflexivity | split; [reflexivity | ]].
  intros H. destruct (H aadhaar readonly_host) as [x Hx]. vm_compute in Hx.
  discriminate Hx.
Qed.

(** A failing save leaves no file behind and nothing on the console. *)
Lemma failed_save_writes_nothing (s : script) (h : host) (e : exn) :
  save_oracle h (output_file s) = Some e ->
  saves (log s h) = [] /\ stdout (log s h) = [] /\ outcome s h = Raise e.
Proof.
  intros Hsave. run_cases s h; repeat split; reflexivity.
Qed.

(** C4 (amended).  The image a script saves was allocated as 600x400, or
    500x350 by the visa generator; the national-ID, tax-ID and passport
    generators save it at that size, the visa generator saves it resized to
    500x450. *)
Theorem saved_image_size (s : script) (h : host) (f fmt : string) (q : Z) (im : image) :
  In (f, fmt, q, im) (saves (log s h)) ->
  allocated_size im = match s with visa => (500, 350) | _ => (600, 400) end /\
  image_size im = match s with visa => (500, 450) | _ => (600, 400) end.
Proof.
  run_cases s h; intros Hin; vm_compute in Hin; out_list; split; reflexivity.
Qed.

Lemma saved_image_size_witness :
  exists im,
    In ("visa.jpg", "JPEG", 95, im) (saves (log visa mac_host)) /\
    allocated_size im = (500, 350) /\ image_size im = (500, 450).
Proof.
  eexists. split; [vm_compute; left; reflexivity | ].
  apply (saved_image_size visa mac_host "visa.jpg" "JPEG" 95).
  vm_compute. left. reflexivity.
Defined.

(** The claim C4 as stated fails for the visa generator: the file it writes
    is 500x450 although the surface was allocated as 500x350. *)
Lemma visa_size_differs :
  exists im,
    saves (log visa linux_host) = [("visa.jpg", "JPEG", 95, im)] /\
    allocated_size im = (500, 350) /\
    image_size im = (500, 450) /\
    image_size im <> allocated_size im.
Proof.
  eexists. split; [vm_compute; reflexivity | ].
  split; [reflexivity | split; [reflexivity | ]].
  vm_compute. discriminate.
Qed.

(** ** Exit status *)




(** ** The national-ID scenario *)

(** C2 (amended).  When its save succeeds, the national-ID generator reports the full
    name "KATRINA UUENI" and the Aadhaar number "1234 5678 9012", and the
    image it saved carries exactly these strings in the name line at (20, 80)
    and in the number line at (20, 105). *)
Theorem aadhaar_scenario (h : host) :
  save_oracle h "aadhaar.jpg" = None ->
  In (Print "Full Name: KATRINA UUENI") (log aadhaar h) /\
  In (Print "Aadhaar Number: 1234 5678 9012") (log aadhaar h) /\
  In ("Full Name", "KATRINA UUENI") (reported (log aadhaar h)) /\
  In ("Aadhaar Number", "1234 5678 9012") (reported (log aadhaar h)) /\
  exists im fm,
    saves (log aadhaar h) = [("aadhaar.jpg", "JPEG", 95, im)] /\
    In (Text (20, 80) "Name: KATRINA UUENI" fm "black") (directives im) /\
    In (Text (20, 105) "Aadhaar No: 1234 5678 9012" fm "black") (directives im) /\
    In ("Name", "KATRINA UUENI") (drawn_fields im) /\
    In ("Aadhaar No", "1234 5678 9012") (drawn_fields im).
Proof.
  intros Hsave. remember aadhaar as s eqn:Hs.
  run_cases s h; vm_compute;
    (repeat split; try in_list);
    (eexists _, _; repeat split; in_list).
Qed.

Lemma aadhaar_scenario_witness :
  save_oracle linux_host "aadhaar.jpg" = None /\
  In (Print "Full Name: KATRINA UUENI") (log aadhaar linux_host).
Proof.
  split; [reflexivity | ].
  apply (aadhaar_scenario linux_host). reflexivity.
Defined.

(** The claim C2 as stated fails where the working directory cannot be
    written: the save call raises before the first [print], so the run
    reports no name and no number. *)
Lemma aadhaar_scenario_needs_save :
  save_oracle readonly_host "aadhaar.jpg" = Some (OSError "Permission denied") /\
  stdout (log aadhaar readonly_host) = [] /\
  reported (log aadhaar readonly_host) = [] /\
  ~ (forall h, In (Print "Full Name: KATRINA UUENI") (log aadhaar h)).
Proof.
  split; [reflexivity | split; [reflexivity | split; [reflexivity | ]]].
  intros H. specialize (H readonly_host). vm_compute in H. out_list.
Qed.

(** ** Record lookups *)

(** [d[k]] has no default: a missing key raises. *)
Lemma subscript_missing (d : gmap string string) (k : string) (h : host) :
  d !! k = None -> subscript d k h = ([Subscript k], Raise (KeyError k)).
Proof. intros Hk. unfold subscript, bind, emit, raise. rewrite Hk. reflexivity. Qed.

Lemma subscript_present (d : gmap string string) (k v : string) (h : host) :
  d !! k = Some v -> subscript d k h = ([Subscript k], Ok v).
Proof. intros Hk. unfold subscript, bind, emit, ret. rewrite Hk. reflexivity. Qed.

(** C7.  Every key a script looks up, while it renders and while it reports,
    is a key of its record: the lookup returns the value and its [KeyError]
    branch is not taken; an exception that leaves the script comes from the
    save call. *)
Theorem lookups_never_miss (s : script) (h : host) (k : string) :
  In (Subscript k) (renderer_log s h) \/ In (Subscript k) (log s h) ->
  k ∈ dom (record_of s) /\
  (exists v, subscript (record_of s) k h = ([Subscript k], Ok v)) /\
  (forall e, outcome s h = Raise e -> save_oracle h (output_file s) = Some e).
Proof.
  intros Hk.
  assert (Hsome : exists v, record_of s !! k = Some v).
  { destruct Hk as [Hk | Hk]; revert Hk;
      run_cases s h; intros Hk; vm_compute in Hk; out_list;
      (eexists; vm_compute; reflexivity). }
  destruct Hsome as [v Hv]. split; [ | split].
  - apply elem_of_dom. exists v. exact Hv.
  - exists v. apply subscript_present. exact Hv.
  - intros e. apply only_save_raises.
Qed.

Lemma lookups_never_miss_witness :
  In (Subscript "mrz_line2") (renderer_log passport mac_host) /\
  "mrz_line2" ∈ dom (record_of passport).
Proof.
  assert (H : In (Subscript "mrz_line2") (renderer_log passport mac_host)).
  { vm_compute. in_list. }
  split; [exact H | ].
  apply (lookups_never_miss passport mac_host "mrz_line2"). left. exact H.
Defined.

(** ** Rendering and saving *)

(** C5.  In every script the rendering step has no side effect: up to the
    save call a run only reads the record.  Writing the file is the step that
    follows it: the save call is the first side effect, it is given the
    surface with all the draw calls of the script applied, and nothing is
    saved after it.  In the passport and visa scripts the rendering step is
    the whole of the function that draws. *)
Theorem rendering_step_is_pure (s : script) (h : host) :
  exists reads,
    match save_oracle h (output_file s) with
    | None =>
        exists im report,
          log s h = reads ++ Save (output_file s) "JPEG" 95 im :: report /\
          length (directives im) = directive_count s /\
          saves report = []
    | Some _ => log s h = reads
    end /\
    pure_log reads /\
    (exists keys, reads = map Subscript keys) /\
    (s = passport \/ s = visa -> renderer_log s h = reads).
Proof.
  exists (before_first_effect (log s h)).
  destruct (save_oracle h (output_file s)) as [e | ] eqn:Hsave;
    run_cases s h; cbn [before_first_effect is_effect]; unfold pure_log.
  all: split;
    [ first [ reflexivity
            | eexists _, _; split; [reflexivity | split; reflexivity] ]
    | split; [repeat constructor | split] ].
  all: try (intros [Hs | Hs]; first [discriminate Hs | reflexivity]).
  all: match goal with
       | |- exists keys, ?l = _ =>
           exists (omap (fun ev => match ev with Subscript k => Some k | _ => None end) l);
           reflexivity
       end.
Qed.

Lemma rendering_step_is_pure_witness :
  exists reads im report,
    log pan mac_host = reads ++ Save "pan.jpg" "JPEG" 95 im :: report /\
    pure_log reads /\
    length (directives im) = 11%nat.
Proof.
  destruct (rendering_step_is_pure pan mac_host) as (reads & Hlog & Hpure & _).
  change (save_oracle mac_host (output_file pan)) with (@None exn) in Hlog.
  destruct Hlog as (im & report & Hlog & Hlen & _).
  exists reads, im, report. split; [exact Hlog | split; [exact Hpure | exact Hlen]].
Defined.

(** ** Reported and drawn values *)

(** C1 (amended).  When the save succeeds: every field a script reports from
    its record is printed with the value of that record entry, and, the Visa
    Status and Remarks of the visa script left aside, that value is the value
    of the field on the saved image.  These are all reported fields of the
    national-ID and tax-ID scripts, the passport number, and the fields of the
    visa script but its two dates.  The passport script reports the full name
    as surname, comma, given name, each with its value on the image.  The
    other fields, those of [reported_otherwise], are printed with values that
    no field on the image has. *)
Theorem report_agrees_with_drawing (s : script) (h : host) :
  save_oracle h (output_file s) = None ->
  exists im,
    saves (log s h) = [(output_file s, "JPEG", 95, im)] /\
    (forall label key dlabel,
       In (label, key, dlabel) (reported_from_record s) ->
       exists value,
         record_of s !! key = Some value /\
         In (label, value) (reported (log s h)) /\
         (~ In label (below_surface s) -> drawn_on_image im dlabel value)) /\
    (forall label value,
       In (label, value) (reported (log s h)) ->
       (exists key dlabel,
          In (label, key, dlabel) (reported_from_record s) /\
          record_of s !! key = Some value)
       \/ In label (reported_otherwise s)) /\
    (s = passport ->
     exists sn gn,
       record_of s !! "surname" = Some sn /\
       record_of s !! "given_name" = Some gn /\
       In ("Full Name", sn +:+ ", " +:+ gn) (reported (log s h)) /\
       drawn_on_image im "1. Perekonnanimi / Surname" sn /\
       drawn_on_image im "2. Eesnimi / Given name" gn) /\
    (forall label value,
       In label (reported_otherwise s) -> label <> "Full Name" ->
       In (label, value) (reported (log s h)) ->
       forall dlabel, ~ In (dlabel, value) (drawn_fields im)).
Proof.
  intros Hsave. unfold drawn_on_image.
  run_cases s h; (eexists; split; [reflexivity | split; [ | split; [ | split]]]).
  all: try (intros Hs; first [discriminate Hs | clear Hs]).
  all: try (intros label key dlabel Hin; cbn in Hin; out_list;
            eexists; (split; [vm_compute; reflexivity | split; [vm_compute; in_list | ]]);
            intros Hnot;
            first [ exfalso; apply Hnot; cbn; tauto
                  | match goal with
                    | |- exists d text, In d ?l /\ _ =>
                        let l' := eval vm_compute in l in pick_directive l'
                    end ]).
  all: try (intros label value Hin; vm_compute in Hin; out_list;
            first [ right; cbn; in_list; fail
                  | left; eexists _, _;
                    (split; [cbn; in_list | vm_compute; reflexivity]) ]).
  all: try (eexists _, _;
            (split; [vm_compute; reflexivity | split; [vm_compute; reflexivity | ]]);
            (split; [vm_compute; in_list | ]);
            split;
            match goal with
            | |- exists d text, In d ?l /\ _ =>
                let l' := eval vm_compute in l in pick_directive l'
            end).
  all: intros label value Hin Hneq Hrep dlabel Hd; cbn in Hin; out_list;
    try (apply Hneq; reflexivity);
    vm_compute in Hrep; out_list; vm_compute in Hd; out_list.
Qed.

Lemma report_agrees_with_drawing_witness :
  save_oracle linux_host (output_file pan) = None /\
  exists im, saves (log pan linux_host) = [("pan.jpg", "JPEG", 95, im)] /\
             drawn_on_image im "PAN" "ABCDE1234F" /\
             In ("PAN Number", "ABCDE1234F") (reported (log pan linux_host)).
Proof.
  split; [reflexivity | ].
  destruct (report_agrees_with_drawing pan linux_host) as (im & Him & Hrec & _);
    [reflexivity | ].
  exists im. split; [exact Him | ].
  destruct (Hrec "PAN Number" "pan_number" "PAN") as (value & Hval & Hrep & Hdrawn);
    [cbn; in_list | ].
  vm_compute in Hval. simplify_eq. split; [ | exact Hrep].
  apply Hdrawn. intros [].
Defined.

(** The claim C1 as stated fails for the passport generator: the date of
    birth is reported as "1990-10-19", the record and the image have
    "19.10.1990", and no field drawn on the image has the reported value. *)
Lemma passport_report_differs :
  In ("Date of Birth", "1990-10-19") (reported (log passport linux_host)) /\
  record_of passport !! "date_of_birth" = Some "19.10.1990" /\
  (exists im,
     saves (log passport linux_host) = [("passport.jpg", "JPEG", 95, im)] /\
     In ("5. Sünniaeg / Date of birth", "19.10.1990") (drawn_fields im) /\
     forall text, In text (drawn_texts im) -> contains "1990-10-19" text = false) /\
  ~ report_matches_image passport linux_host.
Proof.
  split; [vm_compute; in_list | ].
  split; [vm_compute; reflexivity | ].
  split.
  - eexists. split; [vm_compute; reflexivity | ].
    split; [vm_compute; in_list | ].
    intros text Hin. vm_compute in Hin. out_list; vm_compute; reflexivity.
  - intros H.
    pose proof (H "Date of Birth" "1990-10-19") as H'. vm_compute in H'.
    edestruct H' as [dlabel Hd]; [in_list | left; reflexivity | ].
    vm_compute in Hd. out_list.
Qed.

(** ** Reproducibility *)

(** Two hosts on which the parts of a computation behave alike. *)
Lemma bind_ext {A B} (m : M A) (f : A -> M B) (h1 h2 : host) :
  m h1 = m h2 -> (forall a, f a h1 = f a h2) -> bind m f h1 = bind m f h2.
Proof.
  intros Hm Hf. unfold bind. rewrite Hm.
  destruct (m h2) as [t [a | e]]; [rewrite Hf | ]; reflexivity.
Qed.

Lemma try_except_ext {A} (body handler : M A) (h1 h2 : host) :
  body h1 = body h2 -> handler h1 = handler h2 ->
  try_except body handler h1 = try_except body handler h2.
Proof.
  intros Hb Hh. unfold try_except. rewrite Hb, Hh. reflexivity.
Qed.

Lemma truetype_ext (size : Z) (h1 h2 : host) :
  truetype_oracle h1 arial size = truetype_oracle h2 arial size ->
  ImageFont_truetype arial size h1 = ImageFont_truetype arial size h2.
Proof. intros H. unfold ImageFont_truetype. rewrite H. reflexivity. Qed.

Lemma image_save_ext (im : image) (f fmt : string) (q : Z) (h1 h2 : host) :
  save_oracle h1 f = save_oracle h2 f ->
  image_save im f fmt q h1 = image_save im f fmt q h2.
Proof. intros H. unfold image_save. rewrite H. reflexivity. Qed.

(** A sequence of statements behaves alike when each statement does. *)
Ltac same_run :=
  cbv beta iota zeta;
  repeat (apply bind_ext;
          [ first [ reflexivity | apply image_save_ext; assumption ]
          | let a := fresh "a" in intros a; cbv beta ]);
  try reflexivity.

Lemma load_fonts_same (s : script) (h1 h2 : host) :
  same_fonts s h1 h2 -> load_fonts s h1 = load_fonts s h2.
Proof.
  intros H.
  destruct s; cbn [load_fonts];
    unfold Aadhaar.load_fonts, Pan.load_fonts, Passport.load_fonts, Visa.load_fonts;
    (apply try_except_ext; [ | reflexivity]);
    repeat (apply bind_ext; [apply truetype_ext, H; cbn; tauto | intros ?]);
    reflexivity.
Qed.

Lemma main_same (s : script) (h1 h2 : host) :
  same_fonts s h1 h2 ->
  save_oracle h1 (output_file s) = save_oracle h2 (output_file s) ->
  main s h1 = main s h2.
Proof.
  intros Hfonts Hsave. pose proof (load_fonts_same s h1 h2 Hfonts) as Hload.
  destruct s; cbn [main load_fonts output_file] in *.
  - unfold Aadhaar.main, Aadhaar.create_test_aadhaar. cbv beta iota zeta.
    apply bind_ext; [exact Hload | intros [[fl fm] fs]]. same_run.
  - unfold Pan.main, Pan.create_test_pan. cbv beta iota zeta.
    apply bind_ext; [exact Hload | intros [[fl fm] fs]]. same_run.
  - unfold Passport.main. apply bind_ext.
    + unfold Passport.create_passport_image. cbv beta iota zeta.
      apply bind_ext; [exact Hload | intros [[fl fm] fs]]. same_run.
    + intros im. same_run.
  - unfold Visa.main. apply bind_ext.
    + unfold Visa.create_visa_image. cbv beta iota zeta.
      apply bind_ext; [exact Hload | intros [[fl fm] fs]]. same_run.
    + intros im. same_run.
Qed.

(** What a run saves is what it saves where the directory is writable. *)
Lemma saves_writable (s : script) (h : host) (x : string * string * Z * image) :
  In x (saves (log s h)) -> In x (saves (log s (writable h))).
Proof.
  unfold writable. run_cases s h; intros Hin; vm_compute in Hin; out_list;
    vm_compute; in_list.
Qed.

Lemma saves_at_most_one (s : script) (h : host) (x y : string * string * Z * image) :
  In x (saves (log s h)) -> In y (saves (log s h)) -> x = y.
Proof.
  run_cases s h; intros Hx Hy; vm_compute in Hx, Hy; out_list; reflexivity.
Qed.

(** C6.  Two runs of a script on hosts that resolve its three fonts alike,
    and that may differ in command line, environment, clock and random seed,
    save the same image under the same name, format and quality, with the
    same directives in the same order; when the save call fares alike on
    both, the runs are equal altogether. *)
Theorem rendering_is_reproducible (s : script) (h1 h2 : host) :
  same_fonts s h1 h2 ->
  (forall x1 x2, In x1 (saves (log s h1)) -> In x2 (saves (log s h2)) -> x1 = x2) /\
  (forall x1 x2, In x1 (saves (log s h1)) -> In x2 (saves (log s h2)) ->
                 directives x1.2 = directives x2.2) /\
  (save_oracle h1 (output_file s) = save_oracle h2 (output_file s) ->
   main s h1 = main s h2).
Proof.
  intros Hfonts.
  assert (Hw : main s (writable h1) = main s (writable h2)).
  { apply main_same; [ | reflexivity].
    intros size Hsize. destruct h1, h2. cbn. apply Hfonts, Hsize. }
  assert (Hsaves : forall x1 x2, In x1 (saves (log s h1)) -> In x2 (saves (log s h2)) ->
                                 x1 = x2).
  { intros x1 x2 H1 H2.
    apply saves_writable in H1. apply saves_writable in H2.
    unfold log in H1. rewrite Hw in H1.
    exact (saves_at_most_one s (writable h2) x1 x2 H1 H2). }
  split; [exact Hsaves | split].
  - intros x1 x2 H1 H2. rewrite (Hsaves x1 x2 H1 H2). reflexivity.
  - intros Hsave. apply main_same; assumption.
Qed.

Lemma rendering_is_reproducible_witness :
  same_fonts visa mac_host other_mac_host /\
  clock mac_host <> clock other_mac_host /\
  main visa mac_host = main visa other_mac_host.
Proof.
  assert (H : same_fonts visa mac_host other_mac_host).
  { intros size _. reflexivity. }
  split; [exact H | split; [discriminate | ]].
  apply (rendering_is_reproducible visa mac_host other_mac_host H). reflexivity.
Defined.

(** ** Text below the surface *)

(** The image the visa generator saves is drawn on a surface 350 pixels high
    and has the text lines "Status: Active" anchored at (20, 350) and
    "Remarks: ..." anchored at (20, 370), below the surface.  These two are
    the only directives of the four scripts that are not anchored inside the
    surface they are drawn on. *)
Theorem text_anchors (s : script) (h : host) (f fmt : string) (q : Z) (im : image) :
  In (f, fmt, q, im) (saves (log s h)) ->
  (s = visa ->
   allocated_size im = (500, 350) /\
   exists fnt,
     In (Text (20, 350) "Status: Active" fnt "black") (directives im) /\
     In (Text (20, 370) "Remarks: Valid for tourism and leisure activities" fnt "black")
        (directives im)) /\
  (forall d, In d (directives im) ->
     anchored_inside (allocated_size im) d = false <->
     s = visa /\
     exists fnt,
       d = Text (20, 350) "Status: Active" fnt "black" \/
       d = Text (20, 370) "Remarks: Valid for tourism and leisure activities" fnt "black").
Proof.
  run_cases s h; intros Hin; vm_compute in Hin; out_list.
  all: split;
    [ intros Hs; first [discriminate Hs | split; [reflexivity | eexists; split; vm_compute; in_list]]
    | intros d Hd; vm_compute in Hd; out_list ].
  all: split;
    first [ discriminate
          | intros [Hs _]; discriminate Hs
          | intros [_ [fnt [Hd | Hd]]]; discriminate Hd
          | intros _; split; [reflexivity | eexists; first [left; reflexivity | right; reflexivity]]
          | reflexivity ].
Qed.

(** * Further properties of the runs *)

(** ** A failing save *)

(** When the save call raises, the run ends with that exception and a
    non-zero status; nothing has been printed, no file is written, and all the
    run has done is to read the record for the drawing. *)
Theorem save_failure_is_silent (s : script) (h : host) (e : exn) :
  save_oracle h (output_file s) = Some e ->
  outcome s h = Raise e /\
  exit_status h (log s h) (outcome s h) <> 0 /\
  stdout (log s h) = [] /\
  saves (log s h) = [] /\
  log s h = renderer_log s h /\
  pure_log (log s h).
Proof.
  intros Hsave.
  run_cases s h; unfold pure_log; repeat split; try reflexivity;
    try (destruct e, flo; discriminate); repeat constructor.
Qed.

Lemma save_failure_is_silent_witness :
  save_oracle readonly_host (output_file passport) = Some (OSError "Permission denied") /\
  stdout (log passport readonly_host) = [].
Proof.
  split; [reflexivity | ].
  apply (save_failure_is_silent passport readonly_host (OSError "Permission denied")).
  reflexivity.
Defined.

(** ** The console names the file that was written *)

(** When the save succeeds, the first line on the console is
    "Created <file> with ...", where <file> is the name the image was saved
    under; no later line mentions the file. *)
Theorem created_message_names_saved_file (s : script) (h : host) :
  save_oracle h (output_file s) = None ->
  exists line rest im,
    stdout (log s h) = line :: rest /\
    String.prefix ("Created " +:+ output_file s +:+ " with ") line = true /\
    saves (log s h) = [(output_file s, "JPEG", 95, im)] /\
    Forall (fun l => contains (output_file s) l = false) rest.
Proof.
  intros Hsave.
  run_cases s h; eexists _, _, _;
    (split; [reflexivity | split; [reflexivity | split; [reflexivity | ]]]);
    repeat constructor.
Qed.

Lemma created_message_names_saved_file_witness :
  save_oracle linux_host (output_file visa) = None /\
  exists line rest, stdout (log visa linux_host) = line :: rest /\
                    String.prefix "Created visa.jpg with " line = true.
Proof.
  split; [reflexivity | ].
  destruct (created_message_names_saved_file visa linux_host)
    as (line & rest & im & Hout & Hpre & _); [reflexivity | ].
  exists line, rest. split; [exact Hout | exact Hpre].
Defined.

(** ** The fonts of a run *)

(** The try/except block binds the three tiers either to the three fonts the
    host returned, each for its own size, or all three to the default font
    because one of the loads raised; it never binds a mixture. *)
Theorem fonts_all_or_nothing (s : script) (h : host) (fl fm fs : font) :
  load_fonts s h = ([], Ok (fl, fm, fs)) ->
  (exists a b c,
     font_sizes s = [a; b; c] /\
     truetype_oracle h arial a = Ok fl /\
     truetype_oracle h arial b = Ok fm /\
     truetype_oracle h arial c = Ok fs) \/
  ((fl, fm, fs) = (DefaultFont, DefaultFont, DefaultFont) /\
   exists size e, In size (font_sizes s) /\ truetype_oracle h arial size = Raise e).
Proof.
  destruct s; destruct h as [? ? ? ? tto svo flo]; vm_compute;
    repeat host_step; intros H; simplify_eq.
  all: first [ left; eexists _, _, _; repeat split; eassumption
             | right; split; [reflexivity | eexists _, _; split; [ | eassumption]; in_list] ].
Qed.

Lemma fonts_all_or_nothing_witness :
  load_fonts passport mac_host
  = ([], Ok (FreeTypeFont arial 16, FreeTypeFont arial 12, FreeTypeFont arial 10)) /\
  ((exists a b c,
      font_sizes passport = [a; b; c] /\
      truetype_oracle mac_host arial a = Ok (FreeTypeFont arial 16) /\
      truetype_oracle mac_host arial b = Ok (FreeTypeFont arial 12) /\
      truetype_oracle mac_host arial c = Ok (FreeTypeFont arial 10)) \/
   ((FreeTypeFont arial 16, FreeTypeFont arial 12, FreeTypeFont arial 10)
    = (DefaultFont, DefaultFont, DefaultFont) /\
    exists size e, In size (font_sizes passport) /\
                   truetype_oracle mac_host arial size = Raise e)).
Proof.
  split; [reflexivity | ].
  apply (fonts_all_or_nothing passport mac_host). reflexivity.
Defined.

(** The visa generator loads a small font and draws nothing with it: when
    the 9-point load succeeds, the image does not depend on the font it
    returned. *)
Theorem visa_small_font_unused (h1 h2 : host) (f1 f2 : font) :
  truetype_oracle h1 arial 14 = truetype_oracle h2 arial 14 ->
  truetype_oracle h1 arial 11 = truetype_oracle h2 arial 11 ->
  truetype_oracle h1 arial 9 = Ok f1 ->
  truetype_oracle h2 arial 9 = Ok f2 ->
  Visa.create_visa_image h1 = Visa.create_visa_image h2.
Proof.
  destruct h1 as [? ? ? ? tto1 svo1 ?], h2 as [? ? ? ? tto2 svo2 ?].
  unfold arial. cbn [truetype_oracle].
  intros H14 H11 H9a H9b.
  vm_compute. rewrite H9a, H9b, <- H14, <- H11.
  destruct (tto1 _ 14); [ | reflexivity].
  destruct (tto1 _ 11); reflexivity.
Qed.

Lemma visa_small_font_unused_witness :
  truetype_oracle mac_host arial 9 <> truetype_oracle small_font_host arial 9 /\
  Visa.create_visa_image mac_host = Visa.create_visa_image small_font_host.
Proof.
  split; [discriminate | ].
  apply (visa_small_font_unused mac_host small_font_host
           (FreeTypeFont arial 9) (FreeTypeFont "/Library/Fonts/Courier.ttf" 9));
    reflexivity.
Defined.

(** ** Directives and the surface *)

Lemma text_anchors_witness :
  exists im fnt,
    In ("visa.jpg", "JPEG", 95, im) (saves (log visa mac_host)) /\
    allocated_size im = (500, 350) /\
    In (Text (20, 350) "Status: Active" fnt "black") (directives im) /\
    anchored_inside (allocated_size im) (Text (20, 350) "Status: Active" fnt "black") = false.
Proof.
  eexists.
  match goal with
  | |- exists fnt, ?A /\ _ =>
      assert (Hin : A) by (vm_compute; left; reflexivity)
  end.
  destruct (text_anchors visa mac_host _ _ _ _ Hin) as [Hvisa Hout].
  destruct (Hvisa eq_refl) as (Hsize & fnt & Hstatus & _).
  exists fnt. split; [exact Hin | split; [exact Hsize | split; [exact Hstatus | ]]].
  apply (Hout _ Hstatus). split; [reflexivity | ]. exists fnt. left. reflexivity.
Defined.

(** Every rectangle a script draws is given by four ordered coordinates
    between 0 and the width and height of the surface. *)
Theorem rectangles_within_surface (s : script) (h : host) (f fmt : string) (q : Z)
    (im : image) (d : directive) :
  In (f, fmt, q, im) (saves (log s h)) ->
  In d (directives im) ->
  rectangle_within (allocated_size im) d.
Proof.
  run_cases s h; intros Hin Hd; vm_compute in Hin; out_list;
    vm_compute in Hd; out_list; cbn; try exact I; lia.
Qed.

Lemma rectangles_within_surface_witness :
  exists im,
    In ("aadhaar.jpg", "JPEG", 95, im) (saves (log aadhaar linux_host)) /\
    In (Rectangle [0; 0; 600; 60] (Some "#FF6B35") None 1) (directives im) /\
    rectangle_within (allocated_size im)
      (Rectangle [0; 0; 600; 60] (Some "#FF6B35") None 1).
Proof.
  eexists.
  match goal with
  | |- ?A /\ ?B /\ _ =>
      assert (Hin : A) by (vm_compute; left; reflexivity);
      assert (Hd : B) by (vm_compute; in_list)
  end.
  split; [exact Hin | split; [exact Hd | ]].
  exact (rectangles_within_surface aadhaar linux_host _ _ _ _ _ Hin Hd).
Defined.

(** ** The entries of the record that are read *)

(** The drawing reads every entry of the record of its script except
    [place_of_birth] of the passport record and [code] of the visa record,
    and reads nothing else. *)
Theorem record_entries_read (s : script) (h : host) (k : string) :
  In (Subscript k) (renderer_log s h) <->
  k ∈ dom (record_of s) /\ ~ In k (never_read s).
Proof.
  split.
  - run_cases s h; intros Hk; vm_compute in Hk; out_list;
      (split; [apply elem_of_dom; eexists; vm_compute; reflexivity
              | cbn; intuition discriminate]).
  - intros [Hdom Hnot]. apply elem_of_dom in Hdom. destruct Hdom as [v Hv].
    destruct s;
      unfold record_of, Aadhaar.aadhaar_data, Pan.pan_data, Passport.passport_data,
             Visa.visa_data in Hv;
      apply elem_of_list_to_map_2, list_elem_of_In in Hv;
      cbn [In] in Hv; cbn [never_read In] in Hnot.
    all: destruct h as [? ? ? ? tto svo flo]; unfold renderer_log.
    all: match goal with
         | |- context [fst (?m ?h')] => compute_run (m h')
         end; cbn [fst].
    all: out_list; try (vm_compute; in_list; fail).
    all: exfalso; apply Hnot; tauto.
Qed.

Lemma record_entries_read_witness :
  In (Subscript "father_name") (renderer_log aadhaar linux_host) /\
  ~ In (Subscript "place_of_birth") (renderer_log passport linux_host).
Proof.
  split.
  - apply (record_entries_read aadhaar linux_host "father_name"). split.
    + apply elem_of_dom. eexists. vm_compute. reflexivity.
    + intros [].
  - intros Hin.
    apply (record_entries_read passport linux_host "place_of_birth") in Hin.
    destruct Hin as [_ Hnot]. apply Hnot. left. reflexivity.
Defined.

(** * The renderers on any record *)

Lemma passport_global :
  PassportOn.create_passport_image Passport.passport_data = Passport.create_passport_image /\
  PassportOn.main Passport.passport_data = Passport.main.
Proof. split; reflexivity. Qed.

Lemma visa_global :
  VisaOn.create_visa_image Visa.visa_data = Visa.create_visa_image /\
  VisaOn.main Visa.visa_data = Visa.main.
Proof. split; reflexivity. Qed.

Lemma append_empty_r (s : string) : s +:+ "" = s.
Proof.
  induction s as [ | c s IH]; [reflexivity | ].
  change (String c (s +:+ "") = String c s). rewrite IH. reflexivity.
Qed.

Lemma first_missing_None (d : gmap string string) (keys : list string) :
  first_missing d keys = None <-> forall k, In k keys -> is_Some (d !! k).
Proof.
  induction keys as [ | k keys IH]; cbn.
  - split; [intros _ k [] | reflexivity].
  - destruct (d !! k) as [v | ] eqn:Hk.
    + rewrite IH. split.
      * intros H k' [<- | Hin]; [rewrite Hk; eauto | apply H, Hin].
      * intros H k' Hin. apply H. right. exact Hin.
    + split; [discriminate | ].
      intros H. destruct (H k (or_introl eq_refl)) as [v Hv]. congruence.
Qed.

Lemma first_missing_Some (d : gmap string string) (keys : list string) (k : string) :
  first_missing d keys = Some k -> In k keys /\ d !! k = None.
Proof.
  induction keys as [ | k' keys IH]; cbn; [discriminate | ].
  destruct (d !! k') as [v | ] eqn:Hk.
  - intros H. destruct (IH H) as [Hin Hnone]. split; [right; exact Hin | exact Hnone].
  - intros H. simplify_eq. split; [left; reflexivity | exact Hk].
Qed.

(** A run on a record [d] that is not known is computed up to the lookups
    [d !! k]; [record_step] splits on the next one, or takes it from a
    hypothesis. *)
Ltac unfold_script :=
  cbv [PassportOn.create_passport_image PassportOn.main VisaOn.create_visa_image VisaOn.main
       bind try_except ret raise emit subscript lit fstring print
       draw_text draw_rectangle image_resize image_save
       save_oracle fst snd app].

Ltac record_step :=
  match goal with
  | H : ?d !! ?k = _ |- context [match ?d !! ?k with Some _ => _ | None => _ end] =>
      rewrite H
  | |- context [match ?d !! ?k with Some _ => _ | None => _ end] =>
      let E := fresh "Hkey" in destruct (d !! k) eqn:E
  end; cbv beta iota zeta.

Ltac symbolic_run s h :=
  let fl := fresh "fl" in
  let fm := fresh "fm" in
  let fs := fresh "fs" in
  let Hf := fresh "Hfonts" in
  destruct (load_fonts_total s h) as [[[fl fm] fs] Hf]; cbn [load_fonts] in Hf;
  destruct h as [? ? ? ? tto svo flo]; unfold_script;
  rewrite !Hf; cbv beta iota zeta;
  repeat record_step.

Ltac same_key :=
  repeat match goal with
         | H1 : ?d !! ?k = Some ?a, H2 : ?d !! ?k = Some ?b |- _ =>
             rewrite H1 in H2; injection H2 as ->
         | H1 : ?d !! ?k = None, H2 : ?d !! ?k = Some ?b |- _ =>
             rewrite H1 in H2; discriminate H2
         end.

Ltac known_keys :=
  repeat match goal with
         | H : ?d !! ?k = _ |- context [?d !! ?k] => rewrite H
         end.

(** ** The passport renderer *)

Lemma passport_render_run (d : gmap string string) (h : host) :
  (PassportOn.create_passport_image d h).1
  = map Subscript (read_until_missing d passport_keys) /\
  match first_missing d passport_keys with
  | Some k => (PassportOn.create_passport_image d h).2 = Raise (KeyError k)
  | None => exists im, (PassportOn.create_passport_image d h).2 = Ok im
  end.
Proof.
  cbn [read_until_missing first_missing passport_keys map].
  symbolic_run passport h.
  all: cbn [fst snd]; split; eauto.
Qed.

(** [create_passport_image] returns an image exactly when the record has the
    fourteen keys it draws.  Otherwise it raises [KeyError] for the first of
    them, in drawing order, that is missing, having looked up the keys up to
    that one; it raises nothing else. *)
Theorem passport_render_key_errors (d : gmap string string) (h : host) :
  ((exists im, (PassportOn.create_passport_image d h).2 = Ok im) <->
   forall k, In k passport_keys -> is_Some (d !! k)) /\
  (forall e, (PassportOn.create_passport_image d h).2 = Raise e ->
     exists k, e = KeyError k /\ In k passport_keys /\ d !! k = None /\
               first_missing d passport_keys = Some k) /\
  (PassportOn.create_passport_image d h).1
  = map Subscript (read_until_missing d passport_keys).
Proof.
  destruct (passport_render_run d h) as [Hlog Hres].
  split; [ | split; [ | exact Hlog]].
  - rewrite <- first_missing_None.
    destruct (first_missing d passport_keys) as [k | ].
    + rewrite Hres. split; [intros [im Him]; discriminate | discriminate].
    + split; [reflexivity | intros _; exact Hres].
  - intros e He. destruct (first_missing d passport_keys) as [k | ] eqn:Hk.
    + rewrite Hres in He. simplify_eq.
      destruct (first_missing_Some d passport_keys k Hk) as [Hin Hnone]. eauto.
    + destruct Hres as [im Him]. congruence.
Qed.

Lemma passport_render_key_errors_witness :
  PassportOn.create_passport_image passport_without_sex linux_host
  = (map Subscript ["type"; "country_code"; "surname"; "given_name"; "personal_code";
                    "citizenship"; "date_of_birth"; "sex"],
     Raise (KeyError "sex")) /\
  exists k, KeyError "sex" = KeyError k /\ In k passport_keys /\
            passport_without_sex !! k = None /\
            first_missing passport_without_sex passport_keys = Some k.
Proof.
  split; [vm_compute; reflexivity | ].
  apply (passport_render_key_errors passport_without_sex linux_host).
  vm_compute. reflexivity.
Defined.

(** When [create_passport_image] returns, the image is 600x400 and every
    entry of [passport_layout] is drawn at its anchor, in black, as its label
    followed by the value the record has for the key. *)
Theorem passport_draws_record (d : gmap string string) (h : host) (t : list event)
    (im : image) :
  PassportOn.create_passport_image d h = (t, Ok im) ->
  image_size im = (600, 400) /\
  forall k xy label v,
    In (k, xy, label) passport_layout -> d !! k = Some v ->
    exists fnt, In (Text xy (label +:+ v) fnt "black") (directives im).
Proof.
  revert t im. symbolic_run passport h; intros t im Hrun; try discriminate Hrun.
  injection Hrun as <- <-. split; [reflexivity | ].
  intros k xy label v Hin Hv. rewrite ?append_empty_r.
  cbn in Hin. out_list; same_key; eexists; vm_compute; in_list.
Qed.

Lemma passport_draws_record_witness :
  exists t im,
    PassportOn.create_passport_image passport_born_2000 mac_host = (t, Ok im) /\
    exists fnt, In (Text (20, 200) "5. Sünniaeg / Date of birth: 01.01.2000" fnt "black")
                   (directives im).
Proof.
  eexists _, _.
  match goal with
  | |- ?A /\ _ => assert (Hrun : A) by (vm_compute; reflexivity)
  end.
  split; [exact Hrun | ].
  destruct (passport_draws_record _ _ _ _ Hrun) as [_ Hdraw].
  apply (Hdraw "date_of_birth" (20, 200) "5. Sünniaeg / Date of birth: " "01.01.2000").
  - cbn. in_list.
  - vm_compute. reflexivity.
Defined.

(** The passport renderer and main block depend on the record only through
    the fourteen keys that are drawn: records that agree on them give the same
    run. *)
Theorem passport_other_entries_ignored (d1 d2 : gmap string string) (h : host) :
  (forall k, In k passport_keys -> d1 !! k = d2 !! k) ->
  PassportOn.create_passport_image d1 h = PassportOn.create_passport_image d2 h /\
  PassportOn.main d1 h = PassportOn.main d2 h.
Proof.
  intros H. unfold_script.
  repeat match goal with
         | |- context [d1 !! ?k] => rewrite (H k) by (cbn; tauto)
         end.
  split; reflexivity.
Qed.

Lemma passport_other_entries_ignored_witness :
  Passport.passport_data !! "place_of_birth" <> delete "place_of_birth" Passport.passport_data !! "place_of_birth" /\
  PassportOn.main Passport.passport_data linux_host
  = PassportOn.main (delete "place_of_birth" Passport.passport_data) linux_host.
Proof.
  split; [vm_compute; discriminate | ].
  apply (passport_other_entries_ignored Passport.passport_data
           (delete "place_of_birth" Passport.passport_data) linux_host).
  intros k Hk. cbn in Hk. out_list; vm_compute; reflexivity.
Defined.

(** When the renderer raises, the passport main block ends with the same
    exception, with nothing saved or printed.  When it returns and the save
    succeeds, the report cannot fail: it prints the surname, given name and
    document number of the record, and "Estonia" and three fixed dates
    whatever the record holds. *)
Theorem passport_report_on_record (d : gmap string string) (h : host) :
  match (PassportOn.create_passport_image d h).2 with
  | Raise e =>
      PassportOn.main d h = ((PassportOn.create_passport_image d h).1, Raise e)
  | Ok im =>
      save_oracle h "passport.jpg" = None ->
      exists sn gn dn,
        d !! "surname" = Some sn /\ d !! "given_name" = Some gn /\
        d !! "document_number" = Some dn /\
        (PassportOn.main d h).2 = Ok tt /\
        saves (PassportOn.main d h).1 = [("passport.jpg", "JPEG", 95, im)] /\
        stdout (PassportOn.main d h).1 =
          [ "Created passport.jpg with Estonian passport data";
            nl +:+ "Expected extracted data:";
            "Full Name: " +:+ sn +:+ ", " +:+ gn;
            "Passport Number: " +:+ dn;
            "Nationality: Estonia";
            "Date of Birth: 1990-10-19";
            "Expiry Date: 2033-02-13";
            "Issue Date: 2023-02-13" ]
  end.
Proof.
  symbolic_run passport h; cbn [fst snd]; try reflexivity.
  intros Hsave. rewrite Hsave. cbv beta iota zeta. repeat record_step.
  rewrite ?append_empty_r.
  eexists _, _, _. known_keys.
  repeat split; reflexivity.
Qed.

Lemma passport_report_on_record_witness :
  passport_born_2000 !! "date_of_birth" = Some "01.01.2000" /\
  In "Date of Birth: 1990-10-19" (stdout (PassportOn.main passport_born_2000 linux_host).1).
Proof.
  split; [vm_compute; reflexivity | ].
  pose proof (passport_report_on_record passport_born_2000 linux_host) as H.
  destruct ((PassportOn.create_passport_image passport_born_2000 linux_host).2)
    as [im | e] eqn:Hrun; [ | vm_compute in Hrun; discriminate Hrun].
  destruct H as (sn & gn & dn & _ & _ & _ & _ & _ & Hout); [reflexivity | ].
  rewrite Hout. cbn. in_list.
Defined.

(** ** The visa renderer *)

Lemma visa_render_run (d : gmap string string) (h : host) :
  (VisaOn.create_visa_image d h).1 = map Subscript (read_until_missing d visa_keys) /\
  match first_missing d visa_keys with
  | Some k => (VisaOn.create_visa_image d h).2 = Raise (KeyError k)
  | None => exists im, (VisaOn.create_visa_image d h).2 = Ok im
  end.
Proof.
  cbn [read_until_missing first_missing visa_keys map].
  symbolic_run visa h.
  all: cbn [fst snd]; split; eauto.
Qed.

(** [create_visa_image] returns an image exactly when the record has the
    sixteen keys it draws.  Otherwise it raises [KeyError] for the first of
    them, in drawing order, that is missing, having looked up the keys up to
    that one; it raises nothing else. *)
Theorem visa_render_key_errors (d : gmap string string) (h : host) :
  ((exists im, (VisaOn.create_visa_image d h).2 = Ok im) <->
   forall k, In k visa_keys -> is_Some (d !! k)) /\
  (forall e, (VisaOn.create_visa_image d h).2 = Raise e ->
     exists k, e = KeyError k /\ In k visa_keys /\ d !! k = None /\
               first_missing d visa_keys = Some k) /\
  (VisaOn.create_visa_image d h).1 = map Subscript (read_until_missing d visa_keys).
Proof.
  destruct (visa_render_run d h) as [Hlog Hres].
  split; [ | split; [ | exact Hlog]].
  - rewrite <- first_missing_None.
    destruct (first_missing d visa_keys) as [k | ].
    + rewrite Hres. split; [intros [im Him]; discriminate | discriminate].
    + split; [reflexivity | intros _; exact Hres].
  - intros e He. destruct (first_missing d visa_keys) as [k | ] eqn:Hk.
    + rewrite Hres in He. simplify_eq.
      destruct (first_missing_Some d visa_keys k Hk) as [Hin Hnone]. eauto.
    + destruct Hres as [im Him]. congruence.
Qed.

Lemma visa_render_key_errors_witness :
  (VisaOn.create_visa_image visa_without_remarks mac_host).2 = Raise (KeyError "remarks") /\
  exists k, KeyError "remarks" = KeyError k /\ In k visa_keys /\
            visa_without_remarks !! k = None /\
            first_missing visa_without_remarks visa_keys = Some k.
Proof.
  split; [vm_compute; reflexivity | ].
  apply (visa_render_key_errors visa_without_remarks mac_host).
  vm_compute. reflexivity.
Defined.

(** When [create_visa_image] returns, the image was allocated as 500x350 and
    is returned as 500x450, and every entry of [visa_layout] is drawn at its
    anchor as its label followed by the value the record has for the key. *)
Theorem visa_draws_record (d : gmap string string) (h : host) (t : list event)
    (im : image) :
  VisaOn.create_visa_image d h = (t, Ok im) ->
  allocated_size im = (500, 350) /\
  image_size im = (500, 450) /\
  forall k xy label v,
    In (k, xy, label) visa_layout -> d !! k = Some v ->
    exists fnt fill, In (Text xy (label +:+ v) fnt fill) (directives im).
Proof.
  revert t im. symbolic_run visa h; intros t im Hrun; try discriminate Hrun.
  injection Hrun as <- <-. split; [reflexivity | split; [reflexivity | ]].
  intros k xy label v Hin Hv. rewrite ?append_empty_r.
  cbn in Hin. out_list; same_key; eexists _, _; vm_compute; in_list.
Qed.

Lemma visa_draws_record_witness :
  exists t im,
    VisaOn.create_visa_image visa_business mac_host = (t, Ok im) /\
    exists fnt fill, In (Text (20, 200) "Issue Date: 01 JAN 2024" fnt fill) (directives im).
Proof.
  eexists _, _.
  match goal with
  | |- ?A /\ _ => assert (Hrun : A) by (vm_compute; reflexivity)
  end.
  split; [exact Hrun | ].
  destruct (visa_draws_record _ _ _ _ Hrun) as (_ & _ & Hdraw).
  apply (Hdraw "issue_date" (20, 200) "Issue Date: " "01 JAN 2024").
  - cbn. in_list.
  - vm_compute. reflexivity.
Defined.

(** The visa renderer and main block depend on the record only through the
    sixteen keys that are drawn: records that agree on them give the same
    run. *)
Theorem visa_other_entries_ignored (d1 d2 : gmap string string) (h : host) :
  (forall k, In k visa_keys -> d1 !! k = d2 !! k) ->
  VisaOn.create_visa_image d1 h = VisaOn.create_visa_image d2 h /\
  VisaOn.main d1 h = VisaOn.main d2 h.
Proof.
  intros H. unfold_script.
  repeat match goal with
         | |- context [d1 !! ?k] => rewrite (H k) by (cbn; tauto)
         end.
  split; reflexivity.
Qed.

Lemma visa_other_entries_ignored_witness :
  Visa.visa_data !! "code" <> delete "code" Visa.visa_data !! "code" /\
  VisaOn.main Visa.visa_data mac_host = VisaOn.main (delete "code" Visa.visa_data) mac_host.
Proof.
  split; [vm_compute; discriminate | ].
  apply (visa_other_entries_ignored Visa.visa_data (delete "code" Visa.visa_data) mac_host).
  intros k Hk. cbn in Hk. out_list; vm_compute; reflexivity.
Defined.

(** When the renderer raises, the visa main block ends with the same
    exception, with nothing saved or printed.  When it returns and the save
    succeeds, the report cannot fail: it prints thirteen values of the record,
    and the two fixed dates "2025-03-14" and "2026-03-09" whatever issue and
    expiry date the record holds. *)
Theorem visa_report_on_record (d : gmap string string) (h : host) :
  match (VisaOn.create_visa_image d h).2 with
  | Raise e => VisaOn.main d h = ((VisaOn.create_visa_image d h).1, Raise e)
  | Ok im =>
      save_oracle h "visa.jpg" = None ->
      exists ty cat num cty poi pov poe ent stay nation ppt st rem,
        d !! "visa_type" = Some ty /\ d !! "visa_category" = Some cat /\
        d !! "visa_number" = Some num /\ d !! "country" = Some cty /\
        d !! "place_of_issue" = Some poi /\ d !! "purpose_of_visit" = Some pov /\
        d !! "port_of_entry" = Some poe /\ d !! "entries" = Some ent /\
        d !! "stay_duration" = Some stay /\ d !! "nationality" = Some nation /\
        d !! "passport_number" = Some ppt /\ d !! "visa_status" = Some st /\
        d !! "remarks" = Some rem /\
        (VisaOn.main d h).2 = Ok tt /\
        saves (VisaOn.main d h).1 = [("visa.jpg", "JPEG", 95, im)] /\
        stdout (VisaOn.main d h).1 =
          [ "Created visa.jpg with Indian visa data";
            nl +:+ "Expected extracted data (FRRO C-Form Ready):";
            "Visa Type: " +:+ ty;
            "Visa Category: " +:+ cat;
            "Visa Number: " +:+ num;
            "Country: " +:+ cty;
            "Place of Issue: " +:+ poi;
            "Purpose of Visit: " +:+ pov;
            "Issue Date: 2025-03-14";
            "Expiry Date: 2026-03-09";
            "Port of Entry: " +:+ poe;
            "Entries: " +:+ ent;
            "Duration of Stay: " +:+ stay;
            "Nationality: " +:+ nation;
            "Passport Number: " +:+ ppt;
            "Visa Status: " +:+ st;
            "Remarks: " +:+ rem ]
  end.
Proof.
  symbolic_run visa h; cbn [fst snd]; try reflexivity.
  intros Hsave. rewrite Hsave. cbv beta iota zeta. repeat record_step.
  rewrite ?append_empty_r.
  do 13 eexists. known_keys.
  repeat split; reflexivity.
Qed.

Lemma visa_report_on_record_witness :
  visa_business !! "issue_date" = Some "01 JAN 2024" /\
  In "Issue Date: 2025-03-14" (stdout (VisaOn.main visa_business mac_host).1) /\
  In "Visa Type: Business" (stdout (VisaOn.main visa_business mac_host).1).
Proof.
  split; [vm_compute; reflexivity | ].
  pose proof (visa_report_on_record visa_business mac_host) as H.
  destruct ((VisaOn.create_visa_image visa_business mac_host).2)
    as [im | e] eqn:Hrun; [ | vm_compute in Hrun; discriminate Hrun].
  destruct H as (ty & cat & num & cty & poi & pov & poe & ent & stay & nation & ppt & st & rem
                 & Hty & _ & _ & _ & _ & _ & _ & _ & _ & _ & _ & _ & _ & _ & _ & Hout);
    [reflexivity | ].
  rewrite Hout. vm_compute in Hty. simplify_eq. split; cbn; in_list.
Defined.
